(** * imageio DICOM plugin: the lazy access resolver of [DicomFormat.Reader]

    A shallow embedding of [imageio/plugins/dicom.py]: the reader's lazy
    state ([_info], [_data], [_series]), the memoised [series] property, the
    mode dispatch of [_get_length], [_get_data] and [_get_meta_data], and
    the compressed-file recovery of [_open].  Python exceptions are values
    of [exn]; a method is a state transformer over the reader object, the
    operating system it talks to and a log of the external calls it made. *)

From Stdlib Require Import ZArith List String Ascii Bool Lia.
From Stdlib Require Import Orders Sorted Permutation Mergesort.
Import ListNotations.

Local Open Scope string_scope.
Local Open Scope Z_scope.

(** ** Python values used by the plugin *)

(** The exception classes that occur in the module. *)
Inductive exn : Type :=
| IndexError (msg : string)
| ValueError (msg : string)
| RuntimeError (msg : string)
| AttributeError (msg : string)
| CompressedDicom (msg : string)
| NotADicomFile (msg : string)
| CalledProcessError (msg : string).

(** [str(err)] *)
Definition str (e : exn) : string :=
  match e with
  | IndexError m | ValueError m | RuntimeError m | AttributeError m
  | CompressedDicom m | NotADicomFile m | CalledProcessError m => m
  end.

Inductive result (A : Type) : Type :=
| Return (a : A)
| Raise (e : exn).
Arguments Return {A} a.
Arguments Raise {A} e.

(** [seq[i]] on a Python sequence: a negative index counts from the end. *)
Definition py_index {A : Type} (l : list A) (i : Z) : option A :=
  let n := Z.of_nat (List.length l) in
  if 0 <=? i then nth_error l (Z.to_nat i)
  else if - n <=? i then nth_error l (Z.to_nat (n + i))
  else None.

(** [a in b] on strings: [a] occurs in [b] as a substring. *)
Fixpoint contains (needle hay : string) : bool :=
  if String.prefix needle hay then true
  else match hay with
       | EmptyString => false
       | String _ rest => contains needle rest
       end.

(** [s.startswith(p)] *)
Definition startswith (s p : string) : bool := String.prefix p s.

(** [s * b] for a boolean [b] *)
Definition str_times (s : string) (b : bool) : string :=
  if b then s else "".

(** ** Pixel buffers

    A numpy array of at most three dimensions.  [ndim] and [shape0] are the
    attributes the plugin reads; [getitem] is integer indexing along the
    first axis. *)
Definition image : Type := list (list Z).

Inductive ndarray : Type :=
| Array0 (v : Z)
| Array1 (row : list Z)
| Array2 (px : image)
| Array3 (slices : list image).

Definition ndim (a : ndarray) : Z :=
  match a with
  | Array0 _ => 0
  | Array1 _ => 1
  | Array2 _ => 2
  | Array3 _ => 3
  end.

Definition shape0 (a : ndarray) : result Z :=
  match a with
  | Array0 _ => Raise (IndexError "tuple index out of range")
  | Array1 r => Return (Z.of_nat (List.length r))
  | Array2 p => Return (Z.of_nat (List.length p))
  | Array3 s => Return (Z.of_nat (List.length s))
  end.

Definition out_of_bounds : exn := IndexError "index is out of bounds for axis 0".

Definition getitem (a : ndarray) (i : Z) : result ndarray :=
  match a with
  | Array0 _ => Raise (IndexError "too many indices for array")
  | Array1 r =>
      match py_index r i with
      | Some v => Return (Array0 v)
      | None => Raise out_of_bounds
      end
  | Array2 p =>
      match py_index p i with
      | Some r => Return (Array1 r)
      | None => Raise out_of_bounds
      end
  | Array3 s =>
      match py_index s i with
      | Some p => Return (Array2 p)
      | None => Raise out_of_bounds
      end
  end.

(** ** Collaborators of the reader *)

Definition metadata : Type := list (string * string).

(** Modelled from the spec: the class [_dicom.SimpleDicomReader] is not part
    of this file.  A parsed file is "one parsed file -> metadata mapping +
    raw pixel buffer": [dcm._info] (also reachable as [dcm.info]) and the
    array handed out by [dcm.get_numpy_array()]. *)
Record dataset : Type := Dataset {
  dcm_info : metadata;
  dcm_array : ndarray
}.

(** Modelled from the spec: the class [_dicom.DicomSeries] is not part of
    this file.  A series is an ordered collection of datasets ([len(serie)],
    [serie[k]], iteration) that also carries "series i's full volume buffer
    and its metadata" ([serie.get_numpy_array()], [serie.info]). *)
Record serie : Type := Serie {
  entries : list dataset;
  serie_info : metadata;
  serie_array : ndarray
}.

(** The progress indicators of [imageio.core]. *)
Inductive indicator : Type :=
| StdoutProgressIndicator (name : string)
| BaseProgressIndicator (name : string)
| UserProgressIndicator (name : string).

(** A Python float: [m * 2^e], an infinity, or a NaN. *)
Inductive pyfloat : Type :=
| Finite (m e : Z)
| Infinity (negative : bool)
| NaN.

(** What a caller may pass as [progress].  [PyObject] is an instance of any
    other class ([Fraction], [Decimal], [numpy.bool_], an array, a class of
    the caller's); of such an object [_open] uses nothing but the truth of
    [None == v] and of [False == v], each of which is a truth value or an
    exception. *)
Inductive pyvalue : Type :=
| PyNone
| PyBool (b : bool)
| PyInt (n : Z)
| PyStr (s : string)
| PyIndicator (p : indicator)
| PyFloat (x : pyfloat)
| PyObject (cls : string) (eq_None eq_False : result bool).

(** [isinstance(v, BaseProgressIndicator)] *)
Definition is_indicator (v : pyvalue) : option indicator :=
  match v with
  | PyIndicator p => Some p
  | _ => None
  end.

(** [v is True] *)
Definition is_True (v : pyvalue) : bool :=
  match v with
  | PyBool true => true
  | _ => false
  end.

(** [v in (None, False)]: identity or [==] with [None], then with [False].
    A number compares equal to [False] when it is zero; what an object of
    another class answers is its own affair, exceptions included. *)
Definition in_None_False (v : pyvalue) : result bool :=
  match v with
  | PyNone => Return true
  | PyBool b => Return (negb b)
  | PyInt n => Return (n =? 0)
  | PyFloat (Finite m _) => Return (m =? 0)
  | PyFloat _ => Return false
  | PyStr _ => Return false
  | PyIndicator _ => Return false
  | PyObject _ eq_None eq_False =>
      match eq_None with
      | Return true => Return true
      | Return false => eq_False
      | Raise e => Raise e
      end
  end.

Record request : Type := Request {
  filename : string;
  mode : string
}.

(** ** The reader object, the operating system and the call log *)

Record Reader : Type := mkReader {
  self_request : request;
  _info : option metadata;
  _data : option ndarray;
  _series : option (list serie);
  _progressIndicator : option indicator
}.

(** The part of the outside world the module reaches: the file system
    predicates, the parser of [_dicom], the directory scan of [_dicom], and
    [subprocess.check_call] (which fails, or succeeds and leaves files
    behind, each given by what the parser will make of it). *)
Record world : Type := mkWorld {
  platform : string;
  sep : string;
  isdir : string -> bool;
  isfile : string -> bool;
  SimpleDicomReader : string -> result dataset;
  process_directory : request -> option indicator -> list serie;
  check_call : list string -> option (list (string * result dataset))
}.

Inductive event : Type :=
| Parsed (fname : string)
| Spawned (args : list string)
| Printed (msg : string)
| Discovered (req : request).

Record machine : Type := mkMachine {
  self : Reader;
  os : world;
  log : list event
}.

(** A method body: it ends with a value or an exception, and the state it
    reached is kept either way. *)
Definition M (A : Type) : Type := machine -> result A * machine.

Definition ret {A : Type} (a : A) : M A := fun m => (Return a, m).

Definition raise {A : Type} (e : exn) : M A := fun m => (Raise e, m).

Definition bind {A B : Type} (c : M A) (k : A -> M B) : M B :=
  fun m =>
    match c m with
    | (Return a, m') => k a m'
    | (Raise e, m') => (Raise e, m')
    end.

Notation "x <- c ;; k" := (bind c (fun x => k))
  (at level 61, c at next level, right associativity).
Notation "c ;;; k" := (bind c (fun _ => k))
  (at level 61, right associativity).

(** [try: c  except <class> as e: h e]; [h] answers [None] for an exception
    the clause does not catch. *)
Definition try_except {A : Type} (c : M A) (h : exn -> option (M A)) : M A :=
  fun m =>
    match c m with
    | (Return a, m') => (Return a, m')
    | (Raise e, m') =>
        match h e with
        | Some k => k m'
        | None => (Raise e, m')
        end
    end.

Definition lift {A : Type} (r : result A) : M A := fun m => (r, m).

Definition get_self : M Reader := fun m => (Return (self m), m).

Definition get_os : M world := fun m => (Return (os m), m).

Definition put_self (r : Reader) : M unit :=
  fun m => (Return tt, mkMachine r (os m) (log m)).

Definition put_os (w : world) : M unit :=
  fun m => (Return tt, mkMachine (self m) w (log m)).

Definition emit (e : event) : M unit :=
  fun m => (Return tt, mkMachine (self m) (os m) (List.app (log m) [e])).

Definition set_info (v : option metadata) : M unit :=
  r <- get_self ;;
  put_self (mkReader (self_request r) v (_data r) (_series r)
                     (_progressIndicator r)).

Definition set_data (v : option ndarray) : M unit :=
  r <- get_self ;;
  put_self (mkReader (self_request r) (_info r) v (_series r)
                     (_progressIndicator r)).

Definition set_series (v : option (list serie)) : M unit :=
  r <- get_self ;;
  put_self (mkReader (self_request r) (_info r) (_data r) v
                     (_progressIndicator r)).

Definition set_progressIndicator (v : option indicator) : M unit :=
  r <- get_self ;;
  put_self (mkReader (self_request r) (_info r) (_data r) (_series r) v).

(** [seq[i]] as a statement: [IndexError] when out of range. *)
Definition index_or_raise {A : Type} (l : list A) (i : Z) : M A :=
  match py_index l i with
  | Some a => ret a
  | None => raise (IndexError "list index out of range")
  end.

(** ** External calls *)

(** [_dicom.SimpleDicomReader(f)] *)
Definition read_dicom (f : string) : M dataset :=
  emit (Parsed f) ;;;
  w <- get_os ;;
  lift (SimpleDicomReader w f).

(** The file system after a process left [writes] behind. *)
Definition write_files (w : world) (writes : list (string * result dataset))
  : world :=
  fold_left
    (fun acc fw =>
       mkWorld (platform acc) (sep acc) (isdir acc)
               (fun f => if String.eqb f (fst fw) then true else isfile acc f)
               (fun f => if String.eqb f (fst fw) then snd fw
                         else SimpleDicomReader acc f)
               (process_directory acc) (check_call acc))
    writes w.

(** [subprocess.check_call(args, shell=True)] *)
Definition subprocess_check_call (args : list string) : M unit :=
  emit (Spawned args) ;;;
  w <- get_os ;;
  match check_call w args with
  | Some writes => put_os (write_files w writes)
  | None => raise (CalledProcessError "non-zero exit status")
  end.

(** [os.path.join(dir, fname)] for a [dir] that does not end in a separator. *)
Definition path_join (w : world) (dir fname : string) : string :=
  (dir ++ sep w ++ fname)%string.

Definition dcmtk_dirs : list string :=
  ["c:\dcmtk"; "c:\Program Files"; "c:\Program Files\dcmtk";
   "c:\Program Files (x86)\dcmtk"].

(** [get_dcmdjpeg_exe()] *)
Definition get_dcmdjpeg_exe : M (option string) :=
  w <- get_os ;;
  let fname :=
    ("dcmdjpeg" ++ str_times ".exe" (startswith (platform w) "win"))%string in
  match find (fun dir => isfile w (path_join w dir fname)) dcmtk_dirs with
  | Some dir => ret (Some (path_join w dir fname))
  | None =>
      try_except
        (subprocess_check_call [fname; "--version"] ;;; ret (Some fname))
        (fun _ => Some (ret None))
  end.

(** [not exe] for [exe] a string or [None] *)
Definition not_exe (exe : option string) : bool :=
  match exe with
  | None => true
  | Some e => String.eqb e ""
  end.

(** ** [DicomFormat.Reader] *)

(** [Reader._open(progress)] *)
Definition _open (progress : pyvalue) : M unit :=
  r <- get_self ;;
  w <- get_os ;;
  let fn := filename (self_request r) in
  (if isdir w fn then
     set_info (Some []) ;;;
     set_data None
   else
     dcm <- try_except (read_dicom fn)
       (fun err =>
          match err with
          | CompressedDicom _ =>
              Some (if contains "JPEG" (str err) then
                      exe <- get_dcmdjpeg_exe ;;
                      if not_exe exe then raise err
                      else
                        let fname1 := fn in
                        let fname2 := (fname1 ++ ".raw")%string in
                        try_except
                          (subprocess_check_call
                             [match exe with Some e => e | None => "" end;
                              fname1; fname2])
                          (fun _ => Some (raise err)) ;;;
                        emit (Printed
                          "DICOM file contained compressed data. Used dcmtk to convert it.") ;;;
                        read_dicom fname2
                    else raise err)
          | _ => None
          end) ;;
     set_info (Some (dcm_info dcm)) ;;;
     set_data (Some (dcm_array dcm))) ;;;
  set_series None ;;;
  match is_indicator progress with
  | Some p => set_progressIndicator (Some p)
  | None =>
      if is_True progress then
        set_progressIndicator (Some (StdoutProgressIndicator "Reading DICOM"))
      else
        none_or_false <- lift (in_None_False progress) ;;
        if none_or_false then
          set_progressIndicator (Some (BaseProgressIndicator "Dummy"))
        else raise (ValueError "Invalid value for progress.")
  end.

(** [Reader._close()] *)
Definition _close : M unit :=
  set_info None ;;;
  set_data None ;;;
  set_series None.

(** The [series] property. *)
Definition series : M (list serie) :=
  r <- get_self ;;
  match _series r with
  | None =>
      let pi := _progressIndicator r in
      emit (Discovered (self_request r)) ;;;
      w <- get_os ;;
      let found := process_directory w (self_request r) pi in
      set_series (Some found) ;;;
      ret found
  | Some found => ret found
  end.

(** The three statements under [if self._data is None:] that open each of
    [_get_length], [_get_data] and [_get_meta_data]. *)
Definition load_first : M unit :=
  r <- get_self ;;
  match _data r with
  | None =>
      cat <- series ;;
      s0 <- index_or_raise cat 0 ;;
      dcm <- index_or_raise (entries s0) 0 ;;
      set_info (Some (dcm_info dcm)) ;;;
      set_data (Some (dcm_array dcm))
  | Some _ => ret tt
  end.

(** [d.shape[0] if (d.ndim == 3) else 1] *)
Definition nslices_of (d : ndarray) : result Z :=
  if ndim d =? 3 then shape0 d else Return 1.

(** [nslices = self._data.shape[0] if (self._data.ndim == 3) else 1] *)
Definition get_nslices : M Z :=
  r <- get_self ;;
  match _data r with
  | Some d => lift (nslices_of d)
  | None => raise (AttributeError "'NoneType' object has no attribute 'ndim'")
  end.

(** [self._data], once loaded *)
Definition get_data : M ndarray :=
  r <- get_self ;;
  match _data r with
  | Some d => ret d
  | None => raise (AttributeError "'NoneType' object is not subscriptable")
  end.

(** [self.request.mode[1]] *)
Definition mode1 : M ascii :=
  r <- get_self ;;
  match String.get 1 (mode (self_request r)) with
  | Some c => ret c
  | None => raise (IndexError "string index out of range")
  end.

(** [c in 'vV'] for a one-character string [c] *)
Definition in_vV (c : ascii) : bool := contains (String c "") "vV".

(** The list [L] built by the loop [for serie in self.series: L.extend(...)]. *)
Definition flatten (cat : list serie) : list dataset :=
  fold_left (fun L s => List.app L (entries s)) cat [].

(** [sum([len(serie) for serie in cat])] *)
Definition total_len (cat : list serie) : Z :=
  fold_left Z.add (map (fun s => Z.of_nat (List.length (entries s))) cat) 0.

(** [Reader._get_length()] *)
Definition _get_length : M Z :=
  load_first ;;;
  nslices <- get_nslices ;;
  m <- mode1 ;;
  if Ascii.eqb m "i" then ret nslices
  else if Ascii.eqb m "I" then
    if 1 <? nslices then ret nslices
    else cat <- series ;; ret (total_len cat)
  else if Ascii.eqb m "v" then
    if 1 <? nslices then ret 1
    else cat <- series ;; ret (Z.of_nat (List.length cat))
  else if Ascii.eqb m "V" then
    cat <- series ;; ret (Z.of_nat (List.length cat))
  else raise (RuntimeError "DICOM plugin should know what to expect.").

(** [Reader._get_data(index)] *)
Definition _get_data (index : Z) : M (ndarray * option metadata) :=
  load_first ;;;
  nslices <- get_nslices ;;
  m <- mode1 ;;
  if Ascii.eqb m "i" then
    if 1 <? nslices then
      d <- get_data ;; x <- lift (getitem d index) ;;
      r <- get_self ;; ret (x, _info r)
    else if index =? 0 then
      d <- get_data ;; r <- get_self ;; ret (d, _info r)
    else raise (IndexError "Dicom file contains only one slice.")
  else if Ascii.eqb m "I" then
    if (index =? 0) && (1 <? nslices) then
      d <- get_data ;; x <- lift (getitem d index) ;;
      r <- get_self ;; ret (x, _info r)
    else
      cat <- series ;;
      let L := flatten cat in
      dcm <- index_or_raise L index ;;
      ret (dcm_array dcm, Some (dcm_info dcm))
  else if in_vV m then
    if (index =? 0) && (1 <? nslices) then
      d <- get_data ;; r <- get_self ;; ret (d, _info r)
    else
      cat <- series ;;
      s <- index_or_raise cat index ;;
      ret (serie_array s, Some (serie_info s))
  else raise (ValueError "DICOM plugin should know what to expect.").

(** [Reader._get_meta_data(index)]; [index] is an integer or [None]. *)
Definition _get_meta_data (index : option Z) : M (option metadata) :=
  load_first ;;;
  nslices <- get_nslices ;;
  match index with
  | None => r <- get_self ;; ret (_info r)
  | Some index =>
      m <- mode1 ;;
      if Ascii.eqb m "i" then r <- get_self ;; ret (_info r)
      else if Ascii.eqb m "I" then
        if (index =? 0) && (1 <? nslices) then r <- get_self ;; ret (_info r)
        else
          cat <- series ;;
          let L := flatten cat in
          dcm <- index_or_raise L index ;;
          ret (Some (dcm_info dcm))
      else if in_vV m then
        if (index =? 0) && (1 <? nslices) then r <- get_self ;; ret (_info r)
        else
          cat <- series ;;
          s <- index_or_raise cat index ;;
          ret (Some (serie_info s))
      else raise (ValueError "DICOM plugin should know what to expect.")
  end.

(** ** Reading results *)

Definition is_bounds_error {A : Type} (r : result A) : Prop :=
  exists msg, r = Raise (IndexError msg).


Definition returns {A : Type} (r : result A) : Prop := exists a, r = Return a.

Definition map_result {A B : Type} (f : A -> B) (r : result A) : result B :=
  match r with
  | Return a => Return (f a)
  | Raise e => Raise e
  end.

(** The number of slices the dispatch works with, as a plain number. *)
Definition slice_count (d : ndarray) : Z :=
  match d with
  | Array3 s => Z.of_nat (List.length s)
  | _ => 1
  end.

(** The catalog the [series] property answers with in state [m]. *)
Definition catalog_of (m : machine) : list serie :=
  match _series (self m) with
  | Some cat => cat
  | None => process_directory (os m) (self_request (self m))
                              (_progressIndicator (self m))
  end.

(** The character [self.request.mode[1]] of the reader in [m]. *)
Definition mode_char (m : machine) : option ascii :=
  String.get 1 (mode (self_request (self m))).

(** The same reader and log in another outside world. *)
Definition with_os (m : machine) (w : world) : machine :=
  mkMachine (self m) w (log m).

(** How often the directory scan ran. *)
Definition discoveries (l : list event) : nat :=
  List.length (filter (fun e => match e with Discovered _ => true | _ => false end) l).

(** How often an external process was started. *)
Definition spawns (l : list event) : nat :=
  List.length (filter (fun e => match e with Spawned _ => true | _ => false end) l).

(** ** Fixtures *)

Module Fixtures.

Definition px0 : image := [[0; 1]; [2; 3]].
Definition px1 : image := [[4; 5]; [6; 7]].
Definition px2 : image := [[8; 9]; [10; 11]].

Definition info_a : metadata := [("SeriesInstanceUID", "1.2.3")].
Definition info_b : metadata := [("SeriesInstanceUID", "1.2.4")].

Definition dcm (k : Z) : dataset :=
  Dataset [("InstanceNumber", if k =? 0 then "0" else if k =? 1 then "1"
                               else if k =? 2 then "2" else if k =? 3 then "3"
                               else "4")]
          (Array2 [[k]]).

Definition serie0 : serie := Serie [dcm 0; dcm 1] info_a (Array3 [[[0]]; [[1]]]).
Definition serie1 : serie :=
  Serie [dcm 2; dcm 3; dcm 4] info_b (Array3 [[[2]]; [[3]]; [[4]]]).

(** A POSIX machine without dcmtk: one directory "scan" holding two series,
    a plain file "one.dcm", a JPEG-compressed file "jpeg.dcm", a file
    "rle.dcm" compressed otherwise and a file "junk.bin". *)
Definition posix : world :=
  mkWorld "linux" "/"
    (fun f => String.eqb f "scan")
    (fun f => existsb (String.eqb f)
                      ["one.dcm"; "jpeg.dcm"; "rle.dcm"; "junk.bin"])
    (fun f =>
       if String.eqb f "one.dcm" then Return (Dataset info_a (Array2 px0))
       else if String.eqb f "jpeg.dcm" then
         Raise (CompressedDicom "The dicom reader can only read files with uncompressed image data - not JPEG")
       else if String.eqb f "rle.dcm" then
         Raise (CompressedDicom "The dicom reader can only read files with uncompressed image data - not RLE")
       else Raise (NotADicomFile "Not a valid DICOM file."))
    (fun _ _ => [serie0; serie1])
    (fun _ => None).

(** The same machine with dcmtk on the path; [dcmdjpeg] turns "jpeg.dcm"
    into a file that parses to [decoded]. *)
Definition decoded : dataset := Dataset info_b (Array2 px1).

Definition with_dcmtk (catalog : list serie) : world :=
  mkWorld "linux" "/" (isdir posix) (isfile posix) (SimpleDicomReader posix)
    (fun _ _ => catalog)
    (fun args =>
       match args with
       | [_; "--version"] => Some []
       | [_; "jpeg.dcm"; out] => Some [(out, Return decoded)]
       | _ => None
       end).

Definition fresh (fname md : string) : Reader :=
  mkReader (Request fname md) None None None None.

(** A reader whose file gave the buffer [d]. *)
Definition loaded (md : string) (d : ndarray) : machine :=
  mkMachine (mkReader (Request "one.dcm" md) (Some info_a) (Some d) None
                      (Some (BaseProgressIndicator "Dummy")))
            posix [].

(** A reader opened on the directory. *)
Definition on_dir (md : string) : machine :=
  mkMachine (mkReader (Request "scan" md) (Some []) None None
                      (Some (BaseProgressIndicator "Dummy")))
            posix [].

End Fixtures.

(** ** Basic facts *)

Section Indexing.

Context {A : Type}.

Lemma py_index_nonneg (l : list A) (i : Z) :
  0 <= i -> py_index l i = nth_error l (Z.to_nat i).
Proof.
  intros Hi. unfold py_index.
  destruct (Z.leb_spec 0 i); [reflexivity | lia].
Qed.

Lemma py_index_nonneg_none (l : list A) (i : Z) :
  0 <= i -> (py_index l i = None <-> Z.of_nat (List.length l) <= i).
Proof.
  intros Hi. rewrite (py_index_nonneg l i Hi), nth_error_None. lia.
Qed.

Lemma py_index_negative (l : list A) (i : Z) :
  i < 0 ->
  py_index l i =
    if - Z.of_nat (List.length l) <=? i
    then nth_error l (Z.to_nat (Z.of_nat (List.length l) + i))
    else None.
Proof.
  intros Hi. unfold py_index.
  destruct (Z.leb_spec 0 i); [lia | reflexivity].
Qed.

Lemma py_index_some_iff (l : list A) (i : Z) :
  (exists a, py_index l i = Some a) <->
  - Z.of_nat (List.length l) <= i < Z.of_nat (List.length l).
Proof.
  destruct (Z.le_gt_cases 0 i) as [Hi | Hi].
  - rewrite (py_index_nonneg l i Hi). split.
    + intros [a Ha].
      assert (nth_error l (Z.to_nat i) <> None) as Hn by congruence.
      apply nth_error_Some in Hn. lia.
    + intros Hr.
      destruct (nth_error l (Z.to_nat i)) eqn:E; [eauto |].
      apply nth_error_None in E. lia.
  - rewrite (py_index_negative l i Hi).
    destruct (Z.leb_spec (- Z.of_nat (List.length l)) i) as [Hl | Hl].
    + split; [intros _; lia |]. intros _.
      destruct (nth_error l (Z.to_nat (Z.of_nat (List.length l) + i))) eqn:E;
        [eauto |].
      apply nth_error_None in E. lia.
    + split; [intros [a Ha]; discriminate | lia].
Qed.

End Indexing.

Lemma nslices_of_count (d : ndarray) : nslices_of d = Return (slice_count d).
Proof. destruct d; reflexivity. Qed.

Lemma flatten_app (cat : list serie) (acc : list dataset) :
  fold_left (fun L s => List.app L (entries s)) cat acc =
  List.app acc (flatten cat).
Proof.
  unfold flatten. revert acc.
  induction cat as [| s cat IH]; intros acc; simpl.
  - now rewrite app_nil_r.
  - rewrite IH, (IH (entries s)). now rewrite app_assoc.
Qed.

Lemma flatten_cons (s : serie) (cat : list serie) :
  flatten (s :: cat) = List.app (entries s) (flatten cat).
Proof. unfold flatten at 1. simpl. apply flatten_app. Qed.

Lemma total_len_shift (l : list Z) (a : Z) :
  fold_left Z.add l a = a + fold_left Z.add l 0.
Proof.
  revert a. induction l as [| x l IH]; intros a; simpl; [lia |].
  rewrite IH, (IH x). lia.
Qed.

(** The sum of the series' sizes is the length of the flattened list. *)
Lemma total_len_flatten (cat : list serie) :
  total_len cat = Z.of_nat (List.length (flatten cat)).
Proof.
  induction cat as [| s cat IH]; [reflexivity |].
  rewrite flatten_cons, length_app, Nat2Z.inj_add, <- IH.
  unfold total_len. simpl. apply total_len_shift.
Qed.

(** ** The methods on a reader whose data is loaded *)

Lemma load_first_loaded (m : machine) (d : ndarray) :
  _data (self m) = Some d -> load_first m = (Return tt, m).
Proof.
  intros H. unfold load_first, bind, get_self. simpl. now rewrite H.
Qed.

Lemma series_catalog (m : machine) :
  fst (series m) = Return (catalog_of m).
Proof.
  unfold series, catalog_of, bind, get_self. simpl.
  destruct (_series (self m)); reflexivity.
Qed.

Lemma series_cached (m : machine) (cat : list serie) :
  _series (self m) = Some cat -> series m = (Return cat, m).
Proof.
  intros H. unfold series, bind, get_self. simpl. now rewrite H.
Qed.

(** What the dispatch of [_get_length] computes once data is loaded. *)
Definition length_dispatch (c : ascii) (n : Z) : M Z :=
  if Ascii.eqb c "i" then ret n
  else if Ascii.eqb c "I" then
    if 1 <? n then ret n else cat <- series ;; ret (total_len cat)
  else if Ascii.eqb c "v" then
    if 1 <? n then ret 1 else cat <- series ;; ret (Z.of_nat (List.length cat))
  else if Ascii.eqb c "V" then
    cat <- series ;; ret (Z.of_nat (List.length cat))
  else raise (RuntimeError "DICOM plugin should know what to expect.").

Lemma get_length_loaded (m : machine) (d : ndarray) (c : ascii) :
  _data (self m) = Some d -> mode_char m = Some c ->
  _get_length m = length_dispatch c (slice_count d) m.
Proof.
  intros Hd Hc. unfold _get_length, bind at 1.
  rewrite (load_first_loaded m d Hd).
  unfold get_nslices, mode1, bind, get_self, lift. cbv beta iota.
  rewrite Hd, nslices_of_count. unfold mode_char in Hc. rewrite Hc.
  reflexivity.
Qed.

(** What the dispatch of [_get_data] computes once data is loaded. *)
Definition data_dispatch (c : ascii) (d : ndarray) (inf : option metadata)
    (index : Z) : M (ndarray * option metadata) :=
  let n := slice_count d in
  if Ascii.eqb c "i" then
    if 1 <? n then lift (map_result (fun x => (x, inf)) (getitem d index))
    else if index =? 0 then ret (d, inf)
    else raise (IndexError "Dicom file contains only one slice.")
  else if Ascii.eqb c "I" then
    if (index =? 0) && (1 <? n) then
      lift (map_result (fun x => (x, inf)) (getitem d index))
    else
      cat <- series ;;
      dcm <- index_or_raise (flatten cat) index ;;
      ret (dcm_array dcm, Some (dcm_info dcm))
  else if in_vV c then
    if (index =? 0) && (1 <? n) then ret (d, inf)
    else
      cat <- series ;;
      s <- index_or_raise cat index ;;
      ret (serie_array s, Some (serie_info s))
  else raise (ValueError "DICOM plugin should know what to expect.").

Lemma get_data_loaded (m : machine) (d : ndarray) (c : ascii) (index : Z) :
  _data (self m) = Some d -> mode_char m = Some c ->
  _get_data index m = data_dispatch c d (_info (self m)) index m.
Proof.
  intros Hd Hc. unfold _get_data, bind at 1.
  rewrite (load_first_loaded m d Hd).
  unfold data_dispatch, mode_char in *.
  cbv beta iota zeta delta [bind ret raise lift get_self get_data get_nslices mode1].
  rewrite Hd, nslices_of_count, Hc. cbv beta iota.
  destruct (Ascii.eqb c "i"); [| destruct (Ascii.eqb c "I");
                                  [| destruct (in_vV c)]];
    repeat match goal with
           | |- context [if ?b then _ else _] => destruct b
           end;
    cbv beta iota; rewrite ?Hd; try destruct (getitem d index); reflexivity.
Qed.

(** What the dispatch of [_get_meta_data] computes once data is loaded. *)
Definition meta_dispatch (c : ascii) (d : ndarray) (inf : option metadata)
    (index : Z) : M (option metadata) :=
  let n := slice_count d in
  if Ascii.eqb c "i" then ret inf
  else if Ascii.eqb c "I" then
    if (index =? 0) && (1 <? n) then ret inf
    else
      cat <- series ;;
      dcm <- index_or_raise (flatten cat) index ;;
      ret (Some (dcm_info dcm))
  else if in_vV c then
    if (index =? 0) && (1 <? n) then ret inf
    else
      cat <- series ;;
      s <- index_or_raise cat index ;;
      ret (Some (serie_info s))
  else raise (ValueError "DICOM plugin should know what to expect.").

Lemma get_meta_data_loaded (m : machine) (d : ndarray) (c : ascii) (index : Z) :
  _data (self m) = Some d -> mode_char m = Some c ->
  _get_meta_data (Some index) m = meta_dispatch c d (_info (self m)) index m.
Proof.
  intros Hd Hc. unfold _get_meta_data, bind at 1.
  rewrite (load_first_loaded m d Hd).
  unfold meta_dispatch, mode_char in *.
  cbv beta iota zeta delta [bind ret raise lift get_self get_nslices mode1].
  rewrite Hd, nslices_of_count, Hc. cbv beta iota.
  destruct (Ascii.eqb c "i"); [| destruct (Ascii.eqb c "I");
                                  [| destruct (in_vV c)]];
    repeat match goal with
           | |- context [if ?b then _ else _] => destruct b
           end;
    reflexivity.
Qed.

Lemma get_meta_data_unindexed_loaded (m : machine) (d : ndarray) :
  _data (self m) = Some d ->
  _get_meta_data None m = (Return (_info (self m)), m).
Proof.
  intros Hd. unfold _get_meta_data, bind at 1.
  rewrite (load_first_loaded m d Hd).
  cbv beta iota zeta delta [bind ret raise lift get_self get_nslices].
  now rewrite Hd, nslices_of_count.
Qed.

(** Indexing a stack of at least two slices. *)
Lemma getitem_stack (slices : list image) (i : Z) :
  getitem (Array3 slices) i =
    match py_index slices i with
    | Some px => Return (Array2 px)
    | None => Raise out_of_bounds
    end.
Proof. reflexivity. Qed.

Lemma multi_slice_is_stack (d : ndarray) :
  1 < slice_count d -> exists slices, d = Array3 slices.
Proof. destruct d; simpl; intros H; try lia. eauto. Qed.

Lemma getitem_first_of_multi_slice (d : ndarray) :
  1 < slice_count d -> returns (getitem d 0).
Proof.
  intros H. destruct (multi_slice_is_stack d H) as [slices ->].
  simpl in H. destruct slices as [| px rest]; simpl in H; [lia |].
  exists (Array2 px). reflexivity.
Qed.

(** The dispatch tables, mode by mode. *)
Lemma length_dispatch_i (n : Z) : length_dispatch "i" n = ret n.
Proof. reflexivity. Qed.

Lemma length_dispatch_I (n : Z) :
  length_dispatch "I" n =
    if 1 <? n then ret n else cat <- series ;; ret (total_len cat).
Proof. reflexivity. Qed.

Lemma length_dispatch_v (n : Z) :
  length_dispatch "v" n =
    if 1 <? n then ret 1 else cat <- series ;; ret (Z.of_nat (List.length cat)).
Proof. reflexivity. Qed.

Lemma length_dispatch_V (n : Z) :
  length_dispatch "V" n = cat <- series ;; ret (Z.of_nat (List.length cat)).
Proof. reflexivity. Qed.

Lemma data_dispatch_i (d : ndarray) (inf : option metadata) (i : Z) :
  data_dispatch "i" d inf i =
    if 1 <? slice_count d
    then lift (map_result (fun x => (x, inf)) (getitem d i))
    else if i =? 0 then ret (d, inf)
         else raise (IndexError "Dicom file contains only one slice.").
Proof. reflexivity. Qed.

Lemma data_dispatch_I (d : ndarray) (inf : option metadata) (i : Z) :
  data_dispatch "I" d inf i =
    if (i =? 0) && (1 <? slice_count d)
    then lift (map_result (fun x => (x, inf)) (getitem d i))
    else cat <- series ;;
         dcm <- index_or_raise (flatten cat) i ;;
         ret (dcm_array dcm, Some (dcm_info dcm)).
Proof. reflexivity. Qed.

Lemma data_dispatch_vV (c : ascii) (d : ndarray) (inf : option metadata)
    (i : Z) :
  c = "v"%char \/ c = "V"%char ->
  data_dispatch c d inf i =
    if (i =? 0) && (1 <? slice_count d)
    then ret (d, inf)
    else cat <- series ;;
         s <- index_or_raise cat i ;;
         ret (serie_array s, Some (serie_info s)).
Proof. intros [-> | ->]; reflexivity. Qed.

(** ** SingleImage mode *)

(** The sentence of the specification on SingleImage mode over a three
    dimensional buffer, for a buffer of any number of slices. *)
Definition single_image_claim (m : machine) (slices : list image) : Prop :=
  let N := Z.of_nat (List.length slices) in
  fst (_get_length m) = Return N /\
  (forall i, 0 <= i < N ->
     exists px, nth_error slices (Z.to_nat i) = Some px /\
                fst (_get_data i m) = Return (Array2 px, _info (self m))) /\
  is_bounds_error (fst (_get_data N m)).

(** C1, as stated, fails for a three dimensional buffer of one slice:
    [data(0)] hands out the whole buffer, not its slice 0. *)
Lemma single_image_claim_fails_for_one_slice :
  _data (self (Fixtures.loaded "ri" (Array3 [Fixtures.px0])))
    = Some (Array3 [Fixtures.px0]) /\
  mode_char (Fixtures.loaded "ri" (Array3 [Fixtures.px0])) = Some "i"%char /\
  ~ single_image_claim (Fixtures.loaded "ri" (Array3 [Fixtures.px0]))
                       [Fixtures.px0].
Proof.
  split; [reflexivity | split; [reflexivity |]].
  intros (_ & Hslice & _).
  destruct (Hslice 0) as (px & _ & Hd); [simpl; lia |].
  vm_compute in Hd. discriminate.
Qed.

(** C1 (amended to buffers of at least two slices): in SingleImage mode, a
    loaded three dimensional buffer of [N >= 2] slices has length [N],
    [data(i)] is slice [i] with the loaded metadata for [0 <= i < N] and
    [data(N)] is a bounds error; a loaded two dimensional buffer has length
    1, [data(0)] is the whole buffer with the loaded metadata and [data(1)]
    is a bounds error; neither call touches the reader, the outside world or
    the call log, so the series catalog is not consulted. *)
Theorem single_image_mode (m : machine) (d : ndarray) :
  mode_char m = Some "i"%char ->
  _data (self m) = Some d ->
  (forall slices,
      d = Array3 slices -> 2 <= Z.of_nat (List.length slices) ->
      fst (_get_length m) = Return (Z.of_nat (List.length slices)) /\
      (forall i, 0 <= i < Z.of_nat (List.length slices) ->
         exists px, nth_error slices (Z.to_nat i) = Some px /\
                    fst (_get_data i m) = Return (Array2 px, _info (self m))) /\
      is_bounds_error (fst (_get_data (Z.of_nat (List.length slices)) m))) /\
  (forall px,
      d = Array2 px ->
      fst (_get_length m) = Return 1 /\
      fst (_get_data 0 m) = Return (Array2 px, _info (self m)) /\
      is_bounds_error (fst (_get_data 1 m))) /\
  snd (_get_length m) = m /\
  (forall i, snd (_get_data i m) = m).
Proof.
  intros Hc Hd.
  rewrite (get_length_loaded m d _ Hd Hc).
  assert (Hdata : forall i, _get_data i m =
                            data_dispatch "i" d (_info (self m)) i m)
    by (intros i; apply (get_data_loaded m d _ i Hd Hc)).
  rewrite length_dispatch_i.
  assert (Hdata' := fun i => eq_trans (Hdata i)
                      (f_equal (fun c => c m) (data_dispatch_i d _ i))).
  clear Hdata. rename Hdata' into Hdata. cbv beta in Hdata.
  split; [| split; [| split]].
  - intros slices -> HN.
    change (slice_count (Array3 slices)) with (Z.of_nat (List.length slices))
      in Hdata.
    split; [reflexivity |]. split.
    + intros i Hi. rewrite Hdata.
      destruct (Z.ltb_spec 1 (Z.of_nat (List.length slices))); [| lia].
      unfold lift. cbn [fst]. rewrite getitem_stack, py_index_nonneg by lia.
      destruct (nth_error slices (Z.to_nat i)) as [px |] eqn:E.
      * exists px. split; reflexivity.
      * apply nth_error_None in E. lia.
    + rewrite Hdata.
      destruct (Z.ltb_spec 1 (Z.of_nat (List.length slices))); [| lia].
      unfold lift. cbn [fst]. rewrite getitem_stack.
      assert (py_index slices (Z.of_nat (List.length slices)) = None) as ->
        by (apply py_index_nonneg_none; lia).
      eexists. reflexivity.
  - intros px ->. rewrite !Hdata. simpl.
    split; [reflexivity | split; [reflexivity |]]. eexists. reflexivity.
  - reflexivity.
  - intros i. rewrite Hdata.
    destruct (1 <? slice_count d).
    + unfold lift. reflexivity.
    + destruct (i =? 0); reflexivity.
Qed.

(** The amended C1 on a loaded stack of two slices. *)
Lemma single_image_mode_witness :
  mode_char (Fixtures.loaded "ri" (Array3 [Fixtures.px0; Fixtures.px1]))
    = Some "i"%char /\
  fst (_get_length (Fixtures.loaded "ri" (Array3 [Fixtures.px0; Fixtures.px1])))
    = Return 2.
Proof.
  split; [reflexivity |].
  destruct (single_image_mode
              (Fixtures.loaded "ri" (Array3 [Fixtures.px0; Fixtures.px1]))
              (Array3 [Fixtures.px0; Fixtures.px1])
              eq_refl eq_refl) as [Hstack _].
  destruct (Hstack _ eq_refl) as [Hlen _]; [simpl; lia | exact Hlen].
Defined.

(** ** The memoised [series] property and the promotion of the first file *)

(** The state the [series] property leaves behind. *)
Definition cache_series (m : machine) : machine :=
  match _series (self m) with
  | Some _ => m
  | None =>
      mkMachine
        (mkReader (self_request (self m)) (_info (self m)) (_data (self m))
                  (Some (catalog_of m)) (_progressIndicator (self m)))
        (os m)
        (List.app (log m) [Discovered (self_request (self m))])
  end.

Lemma series_run (m : machine) :
  series m = (Return (catalog_of m), cache_series m).
Proof.
  unfold series, cache_series, catalog_of.
  cbv beta iota zeta delta [bind ret get_self get_os emit set_series put_self].
  destruct (_series (self m)); reflexivity.
Qed.

Lemma cache_series_cached (m : machine) :
  _series (self (cache_series m)) = Some (catalog_of m).
Proof.
  unfold cache_series, catalog_of.
  destruct (_series (self m)) eqn:E; simpl; [exact E | reflexivity].
Qed.

Lemma cache_series_catalog (m : machine) :
  catalog_of (cache_series m) = catalog_of m.
Proof.
  unfold catalog_of at 1. now rewrite cache_series_cached.
Qed.

Lemma cache_series_data (m : machine) :
  _data (self (cache_series m)) = _data (self m).
Proof. unfold cache_series. destruct (_series (self m)); reflexivity. Qed.

Lemma cache_series_info (m : machine) :
  _info (self (cache_series m)) = _info (self m).
Proof. unfold cache_series. destruct (_series (self m)); reflexivity. Qed.

Lemma cache_series_request (m : machine) :
  self_request (self (cache_series m)) = self_request (self m).
Proof. unfold cache_series. destruct (_series (self m)); reflexivity. Qed.

Lemma cache_series_mode (m : machine) :
  mode_char (cache_series m) = mode_char m.
Proof. unfold mode_char. now rewrite cache_series_request. Qed.

Lemma cache_series_idem (m : machine) :
  cache_series (cache_series m) = cache_series m.
Proof.
  unfold cache_series at 1. now rewrite cache_series_cached.
Qed.

(** The reader after the first file of the first series was promoted. *)
Definition promoted (m : machine) (dcm : dataset) : machine :=
  mkMachine
    (mkReader (self_request (self m)) (Some (dcm_info dcm))
              (Some (dcm_array dcm)) (Some (catalog_of m))
              (_progressIndicator (self m)))
    (os m)
    (log (cache_series m)).

(** [self.series[0][0]], when there is one. *)
Definition first_dataset (cat : list serie) : option dataset :=
  match cat with
  | s0 :: _ => match entries s0 with
               | dcm :: _ => Some dcm
               | [] => None
               end
  | [] => None
  end.

Lemma load_first_unloaded (m : machine) :
  _data (self m) = None ->
  load_first m =
    match first_dataset (catalog_of m) with
    | Some dcm => (Return tt, promoted m dcm)
    | None => (Raise (IndexError "list index out of range"), cache_series m)
    end.
Proof.
  intros Hd. unfold load_first. unfold bind at 1, get_self at 1.
  cbv beta iota. rewrite Hd. unfold bind at 1. rewrite series_run.
  unfold first_dataset.
  destruct (catalog_of m) as [| s0 rest] eqn:Ecat; [reflexivity |].
  unfold bind at 1. unfold index_or_raise at 1.
  change (py_index (s0 :: rest) 0) with (Some s0).
  unfold ret at 1. cbv beta iota.
  destruct (entries s0) as [| dcm more] eqn:Eent.
  - unfold bind, index_or_raise. rewrite ?Eent. reflexivity.
  - unfold bind at 1, index_or_raise. rewrite ?Eent.
    change (py_index (dcm :: more) 0) with (Some dcm).
    unfold ret at 1. cbv beta iota.
    cbv beta iota zeta delta [bind ret get_self set_info set_data put_self].
    unfold promoted. simpl.
    rewrite cache_series_request, cache_series_cached. f_equal.
    unfold cache_series. destruct (_series (self m)); simpl;
      now rewrite ?Ecat.
Qed.

Lemma promoted_data (m : machine) (dcm : dataset) :
  _data (self (promoted m dcm)) = Some (dcm_array dcm).
Proof. reflexivity. Qed.

Lemma promoted_mode (m : machine) (dcm : dataset) :
  mode_char (promoted m dcm) = mode_char m.
Proof. reflexivity. Qed.

Lemma promoted_series (m : machine) (dcm : dataset) :
  series (promoted m dcm) = (Return (catalog_of m), promoted m dcm).
Proof. apply series_cached. reflexivity. Qed.

(** A method that starts with the promotion behaves, on a directory reader
    with a first file, as it does on the promoted reader. *)
Lemma after_promotion {A : Type} (k : M A) (m : machine) (dcm : dataset) :
  _data (self m) = None ->
  first_dataset (catalog_of m) = Some dcm ->
  (load_first ;;; k) m = k (promoted m dcm).
Proof.
  intros Hd Hf. unfold bind at 1.
  now rewrite (load_first_unloaded m Hd), Hf.
Qed.

Lemma after_loaded {A : Type} (k : M A) (m : machine) (d : ndarray) :
  _data (self m) = Some d ->
  (load_first ;;; k) m = k m.
Proof.
  intros Hd. unfold bind at 1. now rewrite (load_first_loaded m d Hd).
Qed.

Lemma get_length_promoted (m : machine) (dcm : dataset) :
  _data (self m) = None -> first_dataset (catalog_of m) = Some dcm ->
  _get_length m = _get_length (promoted m dcm).
Proof.
  intros Hd Hf. unfold _get_length.
  rewrite (after_promotion _ m dcm Hd Hf).
  now rewrite (after_loaded _ (promoted m dcm) _ (promoted_data m dcm)).
Qed.

Lemma get_data_promoted (m : machine) (dcm : dataset) (i : Z) :
  _data (self m) = None -> first_dataset (catalog_of m) = Some dcm ->
  _get_data i m = _get_data i (promoted m dcm).
Proof.
  intros Hd Hf. unfold _get_data.
  rewrite (after_promotion _ m dcm Hd Hf).
  now rewrite (after_loaded _ (promoted m dcm) _ (promoted_data m dcm)).
Qed.

Lemma get_meta_data_promoted (m : machine) (dcm : dataset) (i : option Z) :
  _data (self m) = None -> first_dataset (catalog_of m) = Some dcm ->
  _get_meta_data i m = _get_meta_data i (promoted m dcm).
Proof.
  intros Hd Hf. unfold _get_meta_data.
  rewrite (after_promotion _ m dcm Hd Hf).
  now rewrite (after_loaded _ (promoted m dcm) _ (promoted_data m dcm)).
Qed.

(** ** What a call answers with

    Once data is loaded, a call either answers from the reader alone, or
    from the catalog (which the [series] property then caches). *)
Inductive answer (A : Type) : Type :=
| Direct (r : result A)
| FromCatalog (f : list serie -> result A).
Arguments Direct {A} r.
Arguments FromCatalog {A} f.

Definition run_answer {A : Type} (a : answer A) : M A :=
  fun m =>
    match a with
    | Direct r => (r, m)
    | FromCatalog f => (f (catalog_of m), cache_series m)
    end.

(** [f(l[i])], or the [IndexError] of the list. *)
Definition pick {A B : Type} (l : list A) (i : Z) (f : A -> B) : result B :=
  match py_index l i with
  | Some a => Return (f a)
  | None => Raise (IndexError "list index out of range")
  end.

Definition no_mode {A : Type} : answer A :=
  Direct (Raise (IndexError "string index out of range")).

Definition length_answer (c : option ascii) (n : Z) : answer Z :=
  match c with
  | None => no_mode
  | Some c =>
      if Ascii.eqb c "i" then Direct (Return n)
      else if Ascii.eqb c "I" then
        if 1 <? n then Direct (Return n)
        else FromCatalog (fun cat => Return (total_len cat))
      else if Ascii.eqb c "v" then
        if 1 <? n then Direct (Return 1)
        else FromCatalog (fun cat => Return (Z.of_nat (List.length cat)))
      else if Ascii.eqb c "V" then
        FromCatalog (fun cat => Return (Z.of_nat (List.length cat)))
      else Direct (Raise (RuntimeError "DICOM plugin should know what to expect."))
  end.

Definition data_answer (c : option ascii) (d : ndarray) (inf : option metadata)
    (i : Z) : answer (ndarray * option metadata) :=
  match c with
  | None => no_mode
  | Some c =>
      if Ascii.eqb c "i" then
        if 1 <? slice_count d
        then Direct (map_result (fun x => (x, inf)) (getitem d i))
        else if i =? 0 then Direct (Return (d, inf))
        else Direct (Raise (IndexError "Dicom file contains only one slice."))
      else if Ascii.eqb c "I" then
        if (i =? 0) && (1 <? slice_count d)
        then Direct (map_result (fun x => (x, inf)) (getitem d i))
        else FromCatalog (fun cat =>
               pick (flatten cat) i
                    (fun dcm => (dcm_array dcm, Some (dcm_info dcm))))
      else if in_vV c then
        if (i =? 0) && (1 <? slice_count d) then Direct (Return (d, inf))
        else FromCatalog (fun cat =>
               pick cat i (fun s => (serie_array s, Some (serie_info s))))
      else Direct (Raise (ValueError "DICOM plugin should know what to expect."))
  end.

Definition meta_answer (c : option ascii) (d : ndarray) (inf : option metadata)
    (i : option Z) : answer (option metadata) :=
  match i with
  | None => Direct (Return inf)
  | Some i =>
      match c with
      | None => no_mode
      | Some c =>
          if Ascii.eqb c "i" then Direct (Return inf)
          else if Ascii.eqb c "I" then
            if (i =? 0) && (1 <? slice_count d) then Direct (Return inf)
            else FromCatalog (fun cat =>
                   pick (flatten cat) i (fun dcm => Some (dcm_info dcm)))
          else if in_vV c then
            if (i =? 0) && (1 <? slice_count d) then Direct (Return inf)
            else FromCatalog (fun cat =>
                   pick cat i (fun s => Some (serie_info s)))
          else Direct (Raise (ValueError "DICOM plugin should know what to expect."))
      end
  end.

Lemma via_series {A B : Type} (l : list serie -> list A) (i : Z) (f : A -> B)
    (m : machine) :
  (cat <- series ;; x <- index_or_raise (l cat) i ;; ret (f x)) m =
  run_answer (FromCatalog (fun cat => pick (l cat) i f)) m.
Proof.
  unfold bind at 1. rewrite series_run. unfold run_answer, pick.
  unfold bind, index_or_raise.
  destruct (py_index (l (catalog_of m)) i); reflexivity.
Qed.

Lemma via_series_len {B : Type} (f : list serie -> B) (m : machine) :
  (cat <- series ;; ret (f cat)) m =
  run_answer (FromCatalog (fun cat => Return (f cat))) m.
Proof. unfold bind. now rewrite series_run. Qed.

Lemma mode_missing {A : Type} (k : ascii -> M A) (m : machine) :
  mode_char m = None ->
  (c <- mode1 ;; k c) m = run_answer no_mode m.
Proof.
  intros H. unfold mode1, bind, get_self. cbv beta iota.
  unfold mode_char in H. now rewrite H.
Qed.

Lemma get_length_answer (m : machine) (d : ndarray) :
  _data (self m) = Some d ->
  _get_length m = run_answer (length_answer (mode_char m) (slice_count d)) m.
Proof.
  intros Hd. destruct (mode_char m) as [c |] eqn:Hc.
  - rewrite (get_length_loaded m d c Hd Hc).
    unfold length_dispatch, length_answer.
    repeat match goal with
           | |- context [if ?b then _ else _] => destruct b
           end;
      try reflexivity; apply via_series_len.
  - unfold _get_length. rewrite (after_loaded _ m d Hd).
    unfold bind at 1, get_nslices, bind at 1, get_self, lift. cbv beta iota.
    rewrite Hd, nslices_of_count. now apply mode_missing.
Qed.

Lemma get_data_answer (m : machine) (d : ndarray) (i : Z) :
  _data (self m) = Some d ->
  _get_data i m =
    run_answer (data_answer (mode_char m) d (_info (self m)) i) m.
Proof.
  intros Hd. destruct (mode_char m) as [c |] eqn:Hc.
  - rewrite (get_data_loaded m d c i Hd Hc).
    unfold data_dispatch, data_answer. cbv zeta.
    repeat match goal with
           | |- context [if ?b then _ else _] => destruct b
           end;
      try reflexivity.
    + apply (via_series flatten).
    + apply (via_series (fun cat => cat)).
  - unfold _get_data. rewrite (after_loaded _ m d Hd).
    unfold bind at 1, get_nslices, bind at 1, get_self, lift. cbv beta iota.
    rewrite Hd, nslices_of_count. now apply mode_missing.
Qed.

Lemma get_meta_data_answer (m : machine) (d : ndarray) (i : option Z) :
  _data (self m) = Some d ->
  _get_meta_data i m =
    run_answer (meta_answer (mode_char m) d (_info (self m)) i) m.
Proof.
  intros Hd. destruct i as [i |].
  - destruct (mode_char m) as [c |] eqn:Hc.
    + rewrite (get_meta_data_loaded m d c i Hd Hc).
      unfold meta_dispatch, meta_answer. cbv zeta.
      repeat match goal with
             | |- context [if ?b then _ else _] => destruct b
             end;
        try reflexivity.
      * apply (via_series flatten).
      * apply (via_series (fun cat => cat)).
    + unfold _get_meta_data. rewrite (after_loaded _ m d Hd).
      unfold bind at 1, get_nslices, bind at 1, get_self, lift. cbv beta iota.
      rewrite Hd, nslices_of_count. now apply mode_missing.
  - apply (get_meta_data_unindexed_loaded m d Hd).
Qed.

Lemma catalog_of_promoted (m : machine) (dcm : dataset) :
  catalog_of (promoted m dcm) = catalog_of m.
Proof. reflexivity. Qed.

Lemma data_answer_I (d : ndarray) (inf : option metadata) (i : Z) :
  data_answer (Some "I"%char) d inf i =
    if (i =? 0) && (1 <? slice_count d)
    then Direct (map_result (fun x => (x, inf)) (getitem d i))
    else FromCatalog (fun cat =>
           pick (flatten cat) i
                (fun dcm => (dcm_array dcm, Some (dcm_info dcm)))).
Proof. reflexivity. Qed.

Lemma data_answer_vV (c : ascii) (d : ndarray) (inf : option metadata) (i : Z) :
  c = "v"%char \/ c = "V"%char ->
  data_answer (Some c) d inf i =
    if (i =? 0) && (1 <? slice_count d) then Direct (Return (d, inf))
    else FromCatalog (fun cat =>
           pick cat i (fun s => (serie_array s, Some (serie_info s)))).
Proof. intros [-> | ->]; reflexivity. Qed.

Lemma length_answer_vV_single (c : ascii) (n : Z) :
  c = "v"%char \/ c = "V"%char -> n <= 1 ->
  length_answer (Some c) n =
    FromCatalog (fun cat => Return (Z.of_nat (List.length cat))).
Proof.
  intros [-> | ->] Hn; [| reflexivity].
  unfold length_answer. simpl Ascii.eqb.
  change (("v" =? "i")%char) with false. change (("v" =? "I")%char) with false.
  change (("v" =? "v")%char) with true. cbv iota.
  destruct (Z.ltb_spec 1 n); [lia | reflexivity].
Qed.

Lemma fast_path_off (i n : Z) : n <= 1 -> (i =? 0) && (1 <? n) = false.
Proof.
  intros Hn. destruct (Z.ltb_spec 1 n); [lia |]. apply andb_false_r.
Qed.

(** ** MultiImage mode over a directory *)

(** C2: in MultiImage mode, on a directory whose catalog holds a series of
    two items and a series of three, and whose first file has a single
    slice, the length is 5, [data(i)] is item [i] of series 0 for
    [0 <= i <= 1] and item [i - 2] of series 1 for [2 <= i <= 4] (buffer and
    metadata of that item), and [data(5)] is a bounds error. *)
Theorem multi_image_two_series (m : machine) (s0 s1 : serie) (a : dataset) :
  mode_char m = Some "I"%char ->
  _data (self m) = None ->
  catalog_of m = [s0; s1] ->
  List.length (entries s0) = 2%nat ->
  List.length (entries s1) = 3%nat ->
  first_dataset (catalog_of m) = Some a ->
  slice_count (dcm_array a) <= 1 ->
  fst (_get_length m) = Return 5 /\
  (forall i, 0 <= i <= 1 ->
     exists x, nth_error (entries s0) (Z.to_nat i) = Some x /\
               fst (_get_data i m) = Return (dcm_array x, Some (dcm_info x))) /\
  (forall i, 2 <= i <= 4 ->
     exists x, nth_error (entries s1) (Z.to_nat (i - 2)) = Some x /\
               fst (_get_data i m) = Return (dcm_array x, Some (dcm_info x))) /\
  is_bounds_error (fst (_get_data 5 m)).
Proof.
  intros Hc Hd Hcat H0 H1 Hf Ha.
  assert (Hflat : flatten (catalog_of m) = List.app (entries s0) (entries s1)).
  { rewrite Hcat, !flatten_cons. unfold flatten. simpl. now rewrite app_nil_r. }
  assert (Hdata : forall i,
             fst (_get_data i m) =
             pick (List.app (entries s0) (entries s1)) i
                  (fun dcm => (dcm_array dcm, Some (dcm_info dcm)))).
  { intros i. rewrite (get_data_promoted m a i Hd Hf).
    rewrite (get_data_answer _ _ i (promoted_data m a)).
    rewrite promoted_mode, Hc, data_answer_I, fast_path_off by exact Ha.
    unfold run_answer. cbn [fst]. now rewrite catalog_of_promoted, Hflat. }
  split; [| split; [| split]].
  - rewrite (get_length_promoted m a Hd Hf).
    rewrite (get_length_answer _ _ (promoted_data m a)).
    rewrite promoted_mode, Hc. unfold length_answer.
    change (("I" =? "i")%char) with false. change (("I" =? "I")%char) with true.
    cbv iota. destruct (Z.ltb_spec 1 (slice_count (dcm_array a))); [lia |].
    unfold run_answer. cbn [fst].
    rewrite catalog_of_promoted, total_len_flatten, Hflat, length_app, H0, H1.
    reflexivity.
  - intros i Hi. rewrite Hdata. unfold pick.
    rewrite py_index_nonneg by lia.
    destruct (nth_error (entries s0) (Z.to_nat i)) as [x |] eqn:E.
    + exists x. split; [reflexivity |].
      rewrite nth_error_app1 by (rewrite H0; lia). now rewrite E.
    + apply nth_error_None in E. lia.
  - intros i Hi. rewrite Hdata. unfold pick.
    rewrite py_index_nonneg by lia.
    destruct (nth_error (entries s1) (Z.to_nat (i - 2))) as [x |] eqn:E.
    + exists x. split; [reflexivity |].
      rewrite nth_error_app2 by (rewrite H0; lia).
      rewrite H0. replace (Z.to_nat i - 2)%nat with (Z.to_nat (i - 2)) by lia.
      now rewrite E.
    + apply nth_error_None in E. lia.
  - rewrite Hdata. unfold pick.
    assert (py_index (List.app (entries s0) (entries s1)) 5 = None) as ->.
    { apply py_index_nonneg_none; [lia |]. rewrite length_app, H0, H1. simpl. lia. }
    eexists. reflexivity.
Qed.

(** C2 on the directory of the fixtures. *)
Lemma multi_image_two_series_witness :
  catalog_of (Fixtures.on_dir "rI") = [Fixtures.serie0; Fixtures.serie1] /\
  fst (_get_length (Fixtures.on_dir "rI")) = Return 5.
Proof.
  split; [reflexivity |].
  apply (multi_image_two_series (Fixtures.on_dir "rI")
           Fixtures.serie0 Fixtures.serie1 (Fixtures.dcm 0)
           eq_refl eq_refl eq_refl eq_refl eq_refl eq_refl).
  simpl. lia.
Defined.

(** ** The volume modes *)

(** The sentence of the specification on SingleVolume mode over a three
    dimensional buffer, for a buffer of any number of slices. *)
Definition single_volume_claim (m : machine) : Prop :=
  forall slices,
    _data (self m) = Some (Array3 slices) ->
    mode_char m = Some "v"%char ->
    fst (_get_length m) = Return 1.

(** C3, as stated, fails for a three dimensional buffer of one slice: in
    SingleVolume mode the length is then the number of series of the
    catalog, two on the directory of the fixtures. *)
Lemma single_volume_claim_fails_for_one_slice :
  _data (self (Fixtures.loaded "rv" (Array3 [Fixtures.px0])))
    = Some (Array3 [Fixtures.px0]) /\
  mode_char (Fixtures.loaded "rv" (Array3 [Fixtures.px0])) = Some "v"%char /\
  fst (_get_length (Fixtures.loaded "rv" (Array3 [Fixtures.px0]))) = Return 2 /\
  ~ single_volume_claim (Fixtures.loaded "rv" (Array3 [Fixtures.px0])).
Proof.
  split; [reflexivity | split; [reflexivity | split; [reflexivity |]]].
  intros H. specialize (H [Fixtures.px0] eq_refl eq_refl).
  vm_compute in H. discriminate.
Qed.

(** C3 (amended to buffers of at least two slices): in SingleVolume and
    MultiVolume mode, on a directory with two series whose first file has a
    single slice, the length is 2 and [data(0)], [data(1)] are the volume
    buffer and metadata of series 0 and series 1.  With a three dimensional
    buffer of at least two slices loaded, SingleVolume has length 1 and
    does not look at the catalog, while MultiVolume answers with the number
    of series of the catalog whatever is loaded, and leaves the catalog
    cached: it was consulted. *)
Theorem volume_modes (m : machine) (c : ascii) :
  c = "v"%char \/ c = "V"%char ->
  mode_char m = Some c ->
  (forall s0 s1 a,
      _data (self m) = None ->
      catalog_of m = [s0; s1] ->
      first_dataset (catalog_of m) = Some a ->
      slice_count (dcm_array a) <= 1 ->
      fst (_get_length m) = Return 2 /\
      fst (_get_data 0 m) = Return (serie_array s0, Some (serie_info s0)) /\
      fst (_get_data 1 m) = Return (serie_array s1, Some (serie_info s1))) /\
  (forall slices,
      _data (self m) = Some (Array3 slices) ->
      2 <= Z.of_nat (List.length slices) ->
      c = "v"%char ->
      _get_length m = (Return 1, m)) /\
  (forall d,
      _data (self m) = Some d -> c = "V"%char ->
      _get_length m =
        (Return (Z.of_nat (List.length (catalog_of m))), cache_series m)).
Proof.
  intros Hv Hc. split; [| split].
  - intros s0 s1 a Hd Hcat Hf Ha.
    assert (Hdata : forall i,
               fst (_get_data i m) =
               pick [s0; s1] i (fun s => (serie_array s, Some (serie_info s)))).
    { intros i. rewrite (get_data_promoted m a i Hd Hf).
      rewrite (get_data_answer _ _ i (promoted_data m a)).
      rewrite promoted_mode, Hc, (data_answer_vV c _ _ _ Hv).
      rewrite fast_path_off by exact Ha.
      unfold run_answer. cbn [fst]. now rewrite catalog_of_promoted, Hcat. }
    split; [| split].
    + rewrite (get_length_promoted m a Hd Hf).
      rewrite (get_length_answer _ _ (promoted_data m a)).
      rewrite promoted_mode, Hc, (length_answer_vV_single c _ Hv Ha).
      unfold run_answer. cbn [fst]. now rewrite catalog_of_promoted, Hcat.
    + rewrite Hdata. reflexivity.
    + rewrite Hdata. reflexivity.
  - intros slices Hd Hn ->.
    rewrite (get_length_answer m _ Hd), Hc. unfold length_answer.
    change (("v" =? "i")%char) with false. change (("v" =? "I")%char) with false.
    change (("v" =? "v")%char) with true. cbv iota.
    change (slice_count (Array3 slices)) with (Z.of_nat (List.length slices)).
    destruct (Z.ltb_spec 1 (Z.of_nat (List.length slices)));
      [reflexivity | lia].
  - intros d Hd ->.
    rewrite (get_length_answer m d Hd), Hc. reflexivity.
Qed.

(** C3 on the directory of the fixtures, in SingleVolume mode. *)
Lemma volume_modes_witness :
  mode_char (Fixtures.on_dir "rv") = Some "v"%char /\
  fst (_get_length (Fixtures.on_dir "rv")) = Return 2.
Proof.
  split; [reflexivity |].
  destruct (volume_modes (Fixtures.on_dir "rv") "v" (or_introl eq_refl) eq_refl)
    as [Hdir _].
  destruct (Hdir Fixtures.serie0 Fixtures.serie1 (Fixtures.dcm 0)
                 eq_refl eq_refl eq_refl) as [Hlen _];
    [simpl; lia | exact Hlen].
Defined.

(** ** Promotion on first access *)

Lemma run_answer_settled {A : Type} (a : answer A) (m : machine) (cat : list serie) :
  _series (self m) = Some cat -> snd (run_answer a m) = m.
Proof.
  intros Hs. destruct a; [reflexivity |].
  unfold run_answer, cache_series. cbn [snd]. now rewrite Hs.
Qed.

(** C10: on a directory reader (no data loaded) whose catalog has a first
    file, the first call to any of [_get_length], [_get_data] and
    [_get_meta_data], in any mode and whatever it answers, leaves the same
    reader behind: the buffer and metadata of the first item of the first
    series are loaded and the catalog is cached.  A later call of any of
    the three therefore starts from the same loaded data. *)
Theorem first_access_promotes (m : machine) (dcm : dataset)
    (i : Z) (j : option Z) :
  _data (self m) = None ->
  first_dataset (catalog_of m) = Some dcm ->
  snd (_get_length m) = promoted m dcm /\
  snd (_get_data i m) = promoted m dcm /\
  snd (_get_meta_data j m) = promoted m dcm /\
  _data (self (promoted m dcm)) = Some (dcm_array dcm) /\
  _info (self (promoted m dcm)) = Some (dcm_info dcm).
Proof.
  intros Hd Hf.
  rewrite (get_length_promoted m dcm Hd Hf), (get_data_promoted m dcm i Hd Hf),
    (get_meta_data_promoted m dcm j Hd Hf).
  rewrite (get_length_answer _ _ (promoted_data m dcm)),
    (get_data_answer _ _ i (promoted_data m dcm)),
    (get_meta_data_answer _ _ j (promoted_data m dcm)).
  repeat split; apply (run_answer_settled _ _ (catalog_of m)); reflexivity.
Qed.

(** C10 on the directory of the fixtures: after [_get_length] in MultiVolume
    mode the first file of the first series is loaded. *)
Lemma first_access_promotes_witness :
  _data (self (Fixtures.on_dir "rV")) = None /\
  _data (self (snd (_get_length (Fixtures.on_dir "rV")))) =
    Some (dcm_array (Fixtures.dcm 0)).
Proof.
  split; [reflexivity |].
  destruct (first_access_promotes (Fixtures.on_dir "rV") (Fixtures.dcm 0)
              0 None eq_refl eq_refl) as [Hlen _].
  rewrite Hlen. reflexivity.
Defined.

(** ** How the promotion can end *)

Inductive load_outcome (m : machine) : result unit * machine -> Prop :=
| load_kept (d : ndarray) :
    _data (self m) = Some d ->
    load_outcome m (Return tt, m)
| load_promoted (dcm : dataset) :
    _data (self m) = None ->
    first_dataset (catalog_of m) = Some dcm ->
    load_outcome m (Return tt, promoted m dcm)
| load_failed :
    _data (self m) = None ->
    first_dataset (catalog_of m) = None ->
    load_outcome m (Raise (IndexError "list index out of range"), cache_series m).

Lemma load_first_outcome (m : machine) : load_outcome m (load_first m).
Proof.
  destruct (_data (self m)) as [d |] eqn:Hd.
  - rewrite (load_first_loaded m d Hd). now apply load_kept with d.
  - rewrite (load_first_unloaded m Hd).
    destruct (first_dataset (catalog_of m)) as [dcm |] eqn:Hf.
    + now apply load_promoted.
    + now apply load_failed.
Qed.

(** A successful promotion leaves data loaded, and the calls go on from the
    state it reached. *)
Lemma load_first_ok (m m' : machine) :
  load_first m = (Return tt, m') ->
  (exists d, _data (self m') = Some d) /\
  mode_char m' = mode_char m /\
  catalog_of m' = catalog_of m /\
  _get_length m = _get_length m' /\
  (forall i, _get_data i m = _get_data i m') /\
  (forall j, _get_meta_data j m = _get_meta_data j m').
Proof.
  intros H. pose proof (load_first_outcome m) as Ho. rewrite H in Ho.
  inversion Ho as [d Hd Heq | dcm Hd Hf Heq | ]; subst.
  - repeat split; eauto.
  - split; [exists (dcm_array dcm); reflexivity |].
    repeat split.
    + now apply get_length_promoted.
    + intros i. now apply get_data_promoted.
    + intros j. now apply get_meta_data_promoted.
Qed.

Lemma load_first_raises {A : Type} (k : M A) (m m' : machine) (e : exn) :
  load_first m = (Raise e, m') -> (load_first ;;; k) m = (Raise e, m').
Proof. intros H. unfold bind. now rewrite H. Qed.

(** ** Bounds *)

Lemma getitem_cases (d : ndarray) (i : Z) :
  returns (getitem d i) \/ is_bounds_error (getitem d i).
Proof.
  destruct d; simpl.
  - right. eexists. reflexivity.
  - destruct (py_index row i); [left | right]; eexists; reflexivity.
  - destruct (py_index px i); [left | right]; eexists; reflexivity.
  - destruct (py_index slices i); [left | right]; eexists; reflexivity.
Qed.

Lemma pick_cases {A B : Type} (l : list A) (i : Z) (f : A -> B) :
  returns (pick l i f) \/ is_bounds_error (pick l i f).
Proof.
  unfold pick. destruct (py_index l i); [left | right]; eexists; reflexivity.
Qed.

Lemma pick_bounds {A B : Type} (l : list A) (i : Z) (f : A -> B) :
  0 <= i ->
  (is_bounds_error (pick l i f) <-> Z.of_nat (List.length l) <= i) /\
  (i < Z.of_nat (List.length l) -> exists a, pick l i f = Return (f a)).
Proof.
  intros Hi. unfold pick.
  pose proof (py_index_nonneg_none l i Hi) as Hn.
  destruct (py_index l i) as [a |] eqn:E.
  - split.
    + split; [intros [msg Hm]; discriminate |].
      intros Hle. apply Hn in Hle. discriminate.
    + intros _. now exists a.
  - split.
    + split; [intros _; now apply Hn | intros _; eexists; reflexivity].
    + intros Hlt. assert (Z.of_nat (List.length l) <= i) by now apply Hn. lia.
Qed.

Lemma getitem_stack_bounds (slices : list image) (i : Z) :
  0 <= i ->
  (is_bounds_error (getitem (Array3 slices) i)
     <-> Z.of_nat (List.length slices) <= i) /\
  (i < Z.of_nat (List.length slices) ->
     exists px, getitem (Array3 slices) i = Return (Array2 px)).
Proof.
  intros Hi. rewrite getitem_stack.
  pose proof (py_index_nonneg_none slices i Hi) as Hn.
  destruct (py_index slices i) as [px |] eqn:E.
  - split.
    + split; [intros [msg Hm]; discriminate |].
      intros Hle. apply Hn in Hle. discriminate.
    + intros _. now exists px.
  - split.
    + split; [intros _; now apply Hn | intros _; eexists; reflexivity].
    + intros Hlt.
      assert (Z.of_nat (List.length slices) <= i) by now apply Hn. lia.
Qed.

Definition recognized (c : ascii) : Prop :=
  c = "i"%char \/ c = "I"%char \/ c = "v"%char \/ c = "V"%char.

(** A complete pair: a buffer together with a metadata mapping. *)
Definition complete_pair (r : result (ndarray * option metadata)) : Prop :=
  exists x md, r = Return (x, Some md).

(** The sentence of the specification on bounds: [data(i)] is a bounds error
    exactly outside [0, length), and a value inside. *)
Definition bounds_claim (m : machine) : Prop :=
  forall n i,
    fst (_get_length m) = Return n ->
    (is_bounds_error (fst (_get_data i m)) <-> ~ (0 <= i < n)) /\
    (0 <= i < n -> complete_pair (fst (_get_data i m))).

(** C4, as stated, fails for a negative index: on a loaded stack of two
    slices in SingleImage mode the length is 2 and [data(-1)] is the last
    slice, not a bounds error. *)
Lemma bounds_claim_fails_for_negative_index :
  fst (_get_length (Fixtures.loaded "ri" (Array3 [Fixtures.px0; Fixtures.px1])))
    = Return 2 /\
  fst (_get_data (-1) (Fixtures.loaded "ri" (Array3 [Fixtures.px0; Fixtures.px1])))
    = Return (Array2 Fixtures.px1, Some Fixtures.info_a) /\
  ~ bounds_claim (Fixtures.loaded "ri" (Array3 [Fixtures.px0; Fixtures.px1])).
Proof.
  split; [reflexivity | split; [reflexivity |]].
  intros H. destruct (H 2 (-1) eq_refl) as [[_ Hb] _].
  destruct Hb as [msg Hm]; [lia |]. vm_compute in Hm. discriminate.
Qed.

Lemma data_answer_i (d : ndarray) (inf : option metadata) (i : Z) :
  data_answer (Some "i"%char) d inf i =
    if 1 <? slice_count d
    then Direct (map_result (fun x => (x, inf)) (getitem d i))
    else if i =? 0 then Direct (Return (d, inf))
         else Direct (Raise (IndexError "Dicom file contains only one slice.")).
Proof. reflexivity. Qed.

Lemma slice_pair_cases (d : ndarray) (inf : metadata) (i : Z) :
  complete_pair (map_result (fun x => (x, Some inf)) (getitem d i)) \/
  is_bounds_error (map_result (fun x => (x, Some inf)) (getitem d i)).
Proof.
  destruct (getitem_cases d i) as [[x Hx] | [msg Hm]].
  - left. rewrite Hx. now exists x, inf.
  - right. rewrite Hm. now exists msg.
Qed.

Lemma pick_pair_cases {A : Type} (l : list A) (i : Z)
    (f : A -> ndarray) (g : A -> metadata) :
  complete_pair (pick l i (fun a => (f a, Some (g a)))) \/
  is_bounds_error (pick l i (fun a => (f a, Some (g a)))).
Proof.
  unfold pick. destruct (py_index l i) as [a |].
  - left. now exists (f a), (g a).
  - right. eexists. reflexivity.
Qed.

Lemma pick_pair_bounds {A : Type} (l : list A) (i : Z)
    (f : A -> ndarray) (g : A -> metadata) :
  0 <= i ->
  (is_bounds_error (pick l i (fun a => (f a, Some (g a))))
     <-> Z.of_nat (List.length l) <= i) /\
  (i < Z.of_nat (List.length l) ->
     complete_pair (pick l i (fun a => (f a, Some (g a))))).
Proof.
  intros Hi.
  destruct (pick_bounds l i (fun a => (f a, Some (g a))) Hi) as [Hb Hr].
  split; [exact Hb |]. intros Hlt. destruct (Hr Hlt) as [a Ha].
  rewrite Ha. now exists (f a), (g a).
Qed.

(** C4 (amended): in a recognized mode, once the first file is loaded,
    [data(i)] is a complete pair or a bounds error and nothing else.  For
    [i >= 0] it is the bounds error exactly when [i >= length], and a
    complete pair below, in SingleImage mode (a buffer of at least one
    slice), in MultiVolume mode (a catalog that is not empty), and in
    MultiImage and SingleVolume mode when the loaded buffer is not
    multi-slice.  A negative index is no bounds error as such: it counts
    from the end, so that in SingleImage mode on [N >= 2] slices [data(-k)]
    is slice [N - k] for [1 <= k <= N]. *)
Theorem data_bounds (m m' : machine) (c : ascii) (d : ndarray) (inf : metadata) :
  recognized c ->
  mode_char m = Some c ->
  load_first m = (Return tt, m') ->
  _data (self m') = Some d ->
  _info (self m') = Some inf ->
  (forall i,
      complete_pair (fst (_get_data i m)) \/
      is_bounds_error (fst (_get_data i m))) /\
  (forall i n,
      0 <= i ->
      (c = "i"%char /\ 1 <= slice_count d) \/
      (c = "V"%char /\ catalog_of m <> []) \/
      ((c = "I"%char \/ c = "v"%char) /\ slice_count d <= 1) ->
      fst (_get_length m) = Return n ->
      (is_bounds_error (fst (_get_data i m)) <-> n <= i) /\
      (i < n -> complete_pair (fst (_get_data i m)))) /\
  (forall slices k,
      c = "i"%char -> d = Array3 slices ->
      2 <= Z.of_nat (List.length slices) ->
      1 <= k <= Z.of_nat (List.length slices) ->
      exists px,
        nth_error slices (Z.to_nat (Z.of_nat (List.length slices) - k)) = Some px /\
        fst (_get_data (- k) m) = Return (Array2 px, Some inf)).
Proof.
  intros Hrec Hc Hload Hd Hinf.
  destruct (load_first_ok m m' Hload) as (_ & Hmode & Hcat & Hlen & Hdata & _).
  rewrite Hlen, <- Hcat. rewrite <- Hmode in Hc.
  rewrite (get_length_answer m' d Hd), Hc.
  assert (Hans : forall i, _get_data i m =
                           run_answer (data_answer (Some c) d (Some inf) i) m').
  { intros i. rewrite Hdata, (get_data_answer m' d i Hd), Hc, Hinf.
    reflexivity. }
  clear Hdata Hlen Hload Hmode Hcat.
  split; [| split].
  - intros i. rewrite Hans.
    destruct Hrec as [-> | [-> | [-> | ->]]].
    + rewrite data_answer_i.
      destruct (1 <? slice_count d); [apply slice_pair_cases |].
      destruct (i =? 0); [left; now exists d, inf | right; eexists; reflexivity].
    + rewrite data_answer_I.
      destruct ((i =? 0) && (1 <? slice_count d));
        [apply slice_pair_cases | apply pick_pair_cases].
    + rewrite (data_answer_vV "v") by now left.
      destruct ((i =? 0) && (1 <? slice_count d));
        [left; now exists d, inf | apply pick_pair_cases].
    + rewrite (data_answer_vV "V") by now right.
      destruct ((i =? 0) && (1 <? slice_count d));
        [left; now exists d, inf | apply pick_pair_cases].
  - intros i n Hi Hcase. rewrite Hans.
    destruct Hcase as [[-> Hn] | [[-> Hne] | [[-> | ->] Hn]]].
    + rewrite data_answer_i. change (length_answer (Some "i"%char) (slice_count d))
        with (@Direct Z (Return (slice_count d))).
      cbn [run_answer fst]. intros [= <-].
      destruct (Z.ltb_spec 1 (slice_count d)) as [Hgt | Hle].
      * destruct (multi_slice_is_stack d Hgt) as [slices ->].
        cbn [run_answer fst]. simpl slice_count.
        destruct (getitem_stack_bounds slices i Hi) as [Hb Hr].
        rewrite getitem_stack in *.
        destruct (py_index slices i) as [px |]; cbn [map_result] in *.
        -- split.
           ++ split; [intros [msg Hm]; discriminate |].
              intros Hle. apply Hb in Hle. destruct Hle as [msg Hm]. discriminate.
           ++ intros _. now exists (Array2 px), inf.
        -- split.
           ++ split; [intros _; apply Hb; eexists; reflexivity |].
              intros _. eexists. reflexivity.
           ++ intros Hlt. destruct (Hr Hlt) as [px Hpx]. discriminate.
      * assert (slice_count d = 1) as -> by lia.
        destruct (Z.eqb_spec i 0) as [-> | Hnz]; cbn [run_answer fst].
        -- split; [split; [intros [msg Hm]; discriminate | lia] |].
           intros _. now exists d, inf.
        -- split; [split; [lia | intros _; eexists; reflexivity] | lia].
    + rewrite (data_answer_vV "V") by now right.
      change (length_answer (Some "V"%char) (slice_count d))
        with (@FromCatalog Z (fun cat => Return (Z.of_nat (List.length cat)))).
      cbn [run_answer fst]. intros [= <-].
      destruct ((i =? 0) && (1 <? slice_count d)) eqn:Efast.
      * apply andb_prop in Efast. destruct Efast as [Ei _].
        apply Z.eqb_eq in Ei. subst i. cbn [run_answer fst].
        assert (0 < Z.of_nat (List.length (catalog_of m'))).
        { destruct (catalog_of m'); [congruence | simpl; lia]. }
        split; [split; [intros [msg Hm]; discriminate | lia] |].
        intros _. now exists d, inf.
      * cbn [run_answer fst].
        apply (pick_pair_bounds (catalog_of m') i serie_array serie_info Hi).
    + rewrite data_answer_I, fast_path_off by exact Hn.
      unfold length_answer.
      change (("I" =? "i")%char) with false.
      change (("I" =? "I")%char) with true. cbv iota.
      destruct (Z.ltb_spec 1 (slice_count d)); [lia |].
      cbn [run_answer fst]. intros [= <-]. rewrite total_len_flatten.
      apply (pick_pair_bounds (flatten (catalog_of m')) i dcm_array dcm_info Hi).
    + rewrite (data_answer_vV "v"), fast_path_off by (exact Hn || now left).
      rewrite (length_answer_vV_single "v") by (exact Hn || now left).
      cbn [run_answer fst]. intros [= <-].
      apply (pick_pair_bounds (catalog_of m') i serie_array serie_info Hi).
  - intros slices k -> -> HN Hk. rewrite Hans, data_answer_i.
    simpl slice_count.
    destruct (Z.ltb_spec 1 (Z.of_nat (List.length slices))); [| lia].
    cbn [run_answer fst]. rewrite getitem_stack, py_index_negative by lia.
    destruct (Z.leb_spec (- Z.of_nat (List.length slices)) (- k)); [| lia].
    replace (Z.of_nat (List.length slices) + - k)
      with (Z.of_nat (List.length slices) - k) by lia.
    destruct (nth_error slices (Z.to_nat (Z.of_nat (List.length slices) - k)))
      as [px |] eqn:E.
    + exists px. split; reflexivity.
    + apply nth_error_None in E. lia.
Qed.

(** The amended C4 on a loaded stack of two slices. *)
Lemma data_bounds_witness :
  recognized "i" /\
  load_first (Fixtures.loaded "ri" (Array3 [Fixtures.px0; Fixtures.px1])) =
    (Return tt, Fixtures.loaded "ri" (Array3 [Fixtures.px0; Fixtures.px1])) /\
  (is_bounds_error
     (fst (_get_data 2 (Fixtures.loaded "ri" (Array3 [Fixtures.px0; Fixtures.px1]))))
   <-> 2 <= 2).
Proof.
  split; [now left | split; [reflexivity |]].
  destruct (data_bounds
              (Fixtures.loaded "ri" (Array3 [Fixtures.px0; Fixtures.px1]))
              (Fixtures.loaded "ri" (Array3 [Fixtures.px0; Fixtures.px1]))
              "i" (Array3 [Fixtures.px0; Fixtures.px1]) Fixtures.info_a
              (or_introl eq_refl) eq_refl eq_refl eq_refl eq_refl)
    as (_ & Hb & _).
  apply (Hb 2 2).
  - lia.
  - left. split; [reflexivity | simpl; lia].
  - reflexivity.
Defined.

(** ** Metadata retrieval *)

(** The sentence of the specification on metadata: an indexed metadata
    request answers as the data request does, error for error. *)
Definition meta_mirrors_data (m : machine) : Prop :=
  forall i,
    fst (_get_meta_data (Some i) m) = map_result snd (fst (_get_data i m)).

(** C5, as stated, fails in SingleImage mode: on a loaded single image
    [data(1)] is a bounds error while the metadata request with index 1
    answers with the loaded metadata. *)
Lemma meta_mirrors_data_fails_in_single_image :
  is_bounds_error (fst (_get_data 1 (Fixtures.loaded "ri" (Array2 Fixtures.px0)))) /\
  fst (_get_meta_data (Some 1) (Fixtures.loaded "ri" (Array2 Fixtures.px0)))
    = Return (Some Fixtures.info_a) /\
  ~ meta_mirrors_data (Fixtures.loaded "ri" (Array2 Fixtures.px0)).
Proof.
  split; [eexists; reflexivity | split; [reflexivity |]].
  intros H. specialize (H 1). vm_compute in H. discriminate.
Qed.

Definition map_answer {A B : Type} (f : A -> B) (a : answer A) : answer B :=
  match a with
  | Direct r => Direct (map_result f r)
  | FromCatalog g => FromCatalog (fun cat => map_result f (g cat))
  end.

Lemma run_map_answer {A B : Type} (f : A -> B) (a : answer A) (m : machine) :
  run_answer (map_answer f a) m =
    (map_result f (fst (run_answer a m)), snd (run_answer a m)).
Proof. destruct a; reflexivity. Qed.

Lemma map_pick {A B C : Type} (l : list A) (i : Z) (f : A -> B) (g : B -> C) :
  map_result g (pick l i f) = pick l i (fun a => g (f a)).
Proof. unfold pick. destruct (py_index l i); reflexivity. Qed.

Lemma fast_slice_meta (d : ndarray) (inf : option metadata) (i : Z) :
  (i =? 0) && (1 <? slice_count d) = true ->
  map_result snd (map_result (fun x => (x, inf)) (getitem d i)) = Return inf.
Proof.
  intros H. apply andb_prop in H. destruct H as [Hi Hn].
  apply Z.eqb_eq in Hi. apply Z.ltb_lt in Hn. subst i.
  destruct (getitem_first_of_multi_slice d Hn) as [x ->]. reflexivity.
Qed.

(** Outside SingleImage mode the metadata answer is the data answer with
    the buffer dropped. *)
Lemma meta_answer_mirrors (c : ascii) (d : ndarray) (inf : option metadata)
    (i : Z) (m : machine) :
  c = "I"%char \/ c = "v"%char \/ c = "V"%char ->
  run_answer (meta_answer (Some c) d inf (Some i)) m =
  run_answer (map_answer snd (data_answer (Some c) d inf i)) m.
Proof.
  intros [-> | Hv].
  - rewrite data_answer_I.
    change (meta_answer (Some "I"%char) d inf (Some i))
      with (if (i =? 0) && (1 <? slice_count d) then Direct (Return inf)
            else FromCatalog (fun cat =>
                   pick (flatten cat) i (fun dcm => Some (dcm_info dcm)))).
    destruct ((i =? 0) && (1 <? slice_count d)) eqn:E.
    + cbn [map_answer run_answer]. now rewrite fast_slice_meta.
    + cbn [map_answer run_answer]. now rewrite map_pick.
  - rewrite (data_answer_vV c) by exact Hv.
    assert (meta_answer (Some c) d inf (Some i) =
            if (i =? 0) && (1 <? slice_count d) then Direct (Return inf)
            else FromCatalog (fun cat =>
                   pick cat i (fun s => Some (serie_info s)))) as ->
      by (destruct Hv as [-> | ->]; reflexivity).
    destruct ((i =? 0) && (1 <? slice_count d)).
    + reflexivity.
    + cbn [map_answer run_answer]. now rewrite map_pick.
Qed.

(** C5 (amended): in MultiImage, SingleVolume and MultiVolume mode a
    metadata request with index [i] ends exactly as [data(i)] does, with the
    same error or with the metadata [data(i)] pairs its buffer with, and
    leaves the same state.  In SingleImage mode it answers like the request
    without index for every [i], raising no bounds error, and so agrees with
    [data(i)] whenever [data(i)] returns.  A request without index returns
    the loaded metadata in every mode, once the promotion of the first file
    has gone through; if that fails, its error is raised. *)
Theorem metadata_resolution (m : machine) (c : ascii) :
  mode_char m = Some c ->
  (c = "I"%char \/ c = "v"%char \/ c = "V"%char ->
   forall i,
     _get_meta_data (Some i) m =
       (map_result snd (fst (_get_data i m)), snd (_get_data i m))) /\
  (c = "i"%char ->
   forall i,
     _get_meta_data (Some i) m = _get_meta_data None m /\
     (forall x md, fst (_get_data i m) = Return (x, md) ->
                   fst (_get_meta_data (Some i) m) = Return md)) /\
  (forall m', load_first m = (Return tt, m') ->
              _get_meta_data None m = (Return (_info (self m')), m')) /\
  (forall e m', load_first m = (Raise e, m') ->
                _get_meta_data None m = (Raise e, m')).
Proof.
  intros Hc. split; [| split; [| split]].
  - intros Hmode i.
    destruct (load_first m) as [[[] | e] m'] eqn:Hload.
    + destruct (load_first_ok m m' Hload)
        as ([d Hd] & Hm & _ & _ & Hdata & Hmeta).
      rewrite Hmeta, Hdata.
      rewrite (get_meta_data_answer m' d _ Hd), (get_data_answer m' d i Hd).
      rewrite Hm, Hc, (meta_answer_mirrors c d _ i m' Hmode).
      apply run_map_answer.
    + unfold _get_meta_data, _get_data.
      now rewrite !(load_first_raises _ m m' e Hload).
  - intros -> i.
    destruct (load_first m) as [[[] | e] m'] eqn:Hload.
    + destruct (load_first_ok m m' Hload)
        as ([d Hd] & Hm & _ & _ & Hdata & Hmeta).
      rewrite !Hmeta, Hdata.
      rewrite !(get_meta_data_answer m' d _ Hd), (get_data_answer m' d i Hd).
      rewrite Hm, Hc. split; [reflexivity |].
      rewrite data_answer_i. cbn [meta_answer run_answer fst].
      change (("i" =? "i")%char) with true. cbv iota. cbn [run_answer fst].
      intros x md.
      destruct (1 <? slice_count d).
      * cbn [run_answer fst]. destruct (getitem d i); cbn [map_result];
          congruence.
      * destruct (i =? 0); cbn [run_answer fst]; congruence.
    + unfold _get_meta_data, _get_data.
      rewrite !(load_first_raises _ m m' e Hload). cbn [fst].
      split; [reflexivity | discriminate].
  - intros m' Hload.
    destruct (load_first_ok m m' Hload) as ([d Hd] & _ & _ & _ & _ & Hmeta).
    rewrite Hmeta. apply (get_meta_data_unindexed_loaded m' d Hd).
  - intros e m' Hload. unfold _get_meta_data.
    apply (load_first_raises _ m m' e Hload).
Qed.

(** The amended C5 on the directory of the fixtures, in MultiImage mode. *)
Lemma metadata_resolution_witness :
  mode_char (Fixtures.on_dir "rI") = Some "I"%char /\
  fst (_get_meta_data (Some 7) (Fixtures.on_dir "rI")) =
    map_result snd (fst (_get_data 7 (Fixtures.on_dir "rI"))).
Proof.
  split; [reflexivity |].
  destruct (metadata_resolution (Fixtures.on_dir "rI") "I" eq_refl) as [H _].
  rewrite (H (or_introl eq_refl) 7). reflexivity.
Defined.

(** ** Repeated calls and the single directory scan *)

Section LazyCall.

(** A method that opens with the promotion of the first file and then
    answers from the loaded data; [_get_length], [_get_data index] and
    [_get_meta_data index] are the three instances. *)
Context {A : Type}.
Variable op : M A.
Variable ans : option ascii -> ndarray -> option metadata -> answer A.

Hypothesis op_loaded :
  forall m d, _data (self m) = Some d ->
              op m = run_answer (ans (mode_char m) d (_info (self m))) m.
Hypothesis op_promoted :
  forall m dcm, _data (self m) = None ->
                first_dataset (catalog_of m) = Some dcm ->
                op m = op (promoted m dcm).
Hypothesis op_failed :
  forall m, _data (self m) = None ->
            first_dataset (catalog_of m) = None ->
            op m = (Raise (IndexError "list index out of range"),
                    cache_series m).

(** The state after the call. *)
Lemma lazy_call_state (m : machine) :
  snd (op m) = m \/ snd (op m) = cache_series m \/
  exists dcm, snd (op m) = promoted m dcm.
Proof.
  destruct (_data (self m)) as [d |] eqn:Hd.
  - rewrite (op_loaded m d Hd).
    destruct (ans (mode_char m) d (_info (self m))); [left | right; left];
      reflexivity.
  - destruct (first_dataset (catalog_of m)) as [dcm |] eqn:Hf.
    + right. right. exists dcm. rewrite (op_promoted m dcm Hd Hf).
      rewrite (op_loaded _ _ (promoted_data m dcm)).
      apply (run_answer_settled _ _ (catalog_of m)). reflexivity.
    + right. left. now rewrite (op_failed m Hd Hf).
Qed.

(** Asked again, in whatever outside world, the call answers the same. *)
Lemma lazy_call_again (m : machine) (w : world) :
  fst (op (with_os (snd (op m)) w)) = fst (op m).
Proof.
  destruct (_data (self m)) as [d |] eqn:Hd.
  - rewrite (op_loaded m d Hd).
    destruct (ans (mode_char m) d (_info (self m))) as [r | f] eqn:Ea.
    + cbn [run_answer snd fst].
      rewrite (op_loaded (with_os m w) d Hd).
      change (mode_char (with_os m w)) with (mode_char m).
      change (_info (self (with_os m w))) with (_info (self m)).
      now rewrite Ea.
    + cbn [run_answer snd fst].
      assert (Hd' : _data (self (with_os (cache_series m) w)) = Some d)
        by (cbn [with_os self]; now rewrite cache_series_data).
      rewrite (op_loaded _ d Hd').
      change (mode_char (with_os (cache_series m) w))
        with (mode_char (cache_series m)).
      change (_info (self (with_os (cache_series m) w)))
        with (_info (self (cache_series m))).
      rewrite cache_series_mode, cache_series_info, Ea.
      cbn [run_answer fst]. f_equal.
      unfold catalog_of at 1. cbn [with_os self].
      now rewrite cache_series_cached.
  - destruct (first_dataset (catalog_of m)) as [dcm |] eqn:Hf.
    + rewrite (op_promoted m dcm Hd Hf).
      rewrite (op_loaded _ _ (promoted_data m dcm)).
      rewrite (run_answer_settled _ _ (catalog_of m)) by reflexivity.
      rewrite (op_loaded (with_os (promoted m dcm) w) (dcm_array dcm))
        by reflexivity.
      change (mode_char (with_os (promoted m dcm) w))
        with (mode_char (promoted m dcm)).
      change (_info (self (with_os (promoted m dcm) w)))
        with (_info (self (promoted m dcm))).
      destruct (ans (mode_char (promoted m dcm)) (dcm_array dcm)
                    (_info (self (promoted m dcm)))); reflexivity.
    + rewrite (op_failed m Hd Hf). cbn [snd fst].
      assert (Hd' : _data (self (with_os (cache_series m) w)) = None)
        by (cbn [with_os self]; now rewrite cache_series_data).
      assert (Hc' : catalog_of (with_os (cache_series m) w) = catalog_of m).
      { unfold catalog_of at 1. cbn [with_os self].
        now rewrite cache_series_cached. }
      rewrite (op_failed _ Hd') by now rewrite Hc'.
      reflexivity.
Qed.

End LazyCall.

(** The calls a caller can make on an open reader. *)
Inductive call : Type :=
| Length
| Data (index : Z)
| MetaData (index : option Z).

Inductive reply : Type :=
| LengthIs (r : result Z)
| DataIs (r : result (ndarray * option metadata))
| MetaDataIs (r : result (option metadata)).

Definition perform (c : call) (m : machine) : reply * machine :=
  match c with
  | Length => (LengthIs (fst (_get_length m)), snd (_get_length m))
  | Data i => (DataIs (fst (_get_data i m)), snd (_get_data i m))
  | MetaData j => (MetaDataIs (fst (_get_meta_data j m)), snd (_get_meta_data j m))
  end.

(** A session: calls in any order, the outside world changing at will
    before each of them. *)
Fixpoint session (steps : list (world * call)) (m : machine) : machine :=
  match steps with
  | [] => m
  | (w, c) :: rest => session rest (snd (perform c (with_os m w)))
  end.

Lemma op_failed_of_load {A : Type} (k : M A) (m : machine) :
  _data (self m) = None -> first_dataset (catalog_of m) = None ->
  (load_first ;;; k) m =
    (Raise (IndexError "list index out of range"), cache_series m).
Proof.
  intros Hd Hf. apply load_first_raises.
  now rewrite (load_first_unloaded m Hd), Hf.
Qed.

Lemma perform_state (c : call) (m : machine) :
  snd (perform c m) = m \/ snd (perform c m) = cache_series m \/
  exists dcm, snd (perform c m) = promoted m dcm.
Proof.
  destruct c as [| i | j]; cbn [perform snd].
  - apply (lazy_call_state _get_length
             (fun c d _ => length_answer c (slice_count d))).
    + intros; now apply get_length_answer.
    + intros; now apply get_length_promoted.
    + intros; now apply op_failed_of_load.
  - apply (lazy_call_state (_get_data i) (fun c d inf => data_answer c d inf i)).
    + intros; now apply get_data_answer.
    + intros; now apply get_data_promoted.
    + intros; now apply op_failed_of_load.
  - apply (lazy_call_state (_get_meta_data j)
             (fun c d inf => meta_answer c d inf j)).
    + intros; now apply get_meta_data_answer.
    + intros; now apply get_meta_data_promoted.
    + intros; now apply op_failed_of_load.
Qed.

Lemma perform_again (c : call) (m : machine) (w : world) :
  fst (perform c (with_os (snd (perform c m)) w)) = fst (perform c m).
Proof.
  destruct c as [| i | j]; cbn [perform snd fst]; f_equal.
  - apply (lazy_call_again _get_length
             (fun c d _ => length_answer c (slice_count d))).
    + intros; now apply get_length_answer.
    + intros; now apply get_length_promoted.
    + intros; now apply op_failed_of_load.
  - apply (lazy_call_again (_get_data i) (fun c d inf => data_answer c d inf i)).
    + intros; now apply get_data_answer.
    + intros; now apply get_data_promoted.
    + intros; now apply op_failed_of_load.
  - apply (lazy_call_again (_get_meta_data j)
             (fun c d inf => meta_answer c d inf j)).
    + intros; now apply get_meta_data_answer.
    + intros; now apply get_meta_data_promoted.
    + intros; now apply op_failed_of_load.
Qed.

Lemma perform_unloaded (c : call) (m : machine) :
  _data (self m) = None ->
  (forall dcm, first_dataset (catalog_of m) = Some dcm ->
               snd (perform c m) = promoted m dcm) /\
  (first_dataset (catalog_of m) = None ->
   snd (perform c m) = cache_series m).
Proof.
  intros Hd. split.
  - intros dcm Hf. destruct c as [| i | j]; cbn [perform snd].
    + rewrite (get_length_promoted m dcm Hd Hf),
        (get_length_answer _ _ (promoted_data m dcm)).
      apply (run_answer_settled _ _ (catalog_of m)). reflexivity.
    + rewrite (get_data_promoted m dcm i Hd Hf),
        (get_data_answer _ _ i (promoted_data m dcm)).
      apply (run_answer_settled _ _ (catalog_of m)). reflexivity.
    + rewrite (get_meta_data_promoted m dcm j Hd Hf),
        (get_meta_data_answer _ _ j (promoted_data m dcm)).
      apply (run_answer_settled _ _ (catalog_of m)). reflexivity.
  - intros Hf. destruct c as [| i | j]; cbn [perform snd].
    + unfold _get_length. now rewrite (op_failed_of_load _ m Hd Hf).
    + unfold _get_data. now rewrite (op_failed_of_load _ m Hd Hf).
    + unfold _get_meta_data. now rewrite (op_failed_of_load _ m Hd Hf).
Qed.

(** Scans made so far, plus the one still to come while nothing is cached. *)
Definition scans_budget (m : machine) : nat :=
  (discoveries (log m) +
   match _series (self m) with Some _ => 0 | None => 1 end)%nat.

Lemma discoveries_snoc (l : list event) (r : request) :
  discoveries (List.app l [Discovered r]) = S (discoveries l).
Proof.
  unfold discoveries. rewrite filter_app, length_app. simpl. lia.
Qed.

Lemma cache_series_budget (m : machine) :
  scans_budget (cache_series m) = scans_budget m /\
  (discoveries (log m) <= discoveries (log (cache_series m)))%nat.
Proof.
  unfold scans_budget, cache_series.
  destruct (_series (self m)) eqn:E; cbn [self log _series].
  - rewrite E. lia.
  - rewrite discoveries_snoc. lia.
Qed.

Lemma promoted_budget (m : machine) (dcm : dataset) :
  scans_budget (promoted m dcm) = scans_budget m /\
  (discoveries (log m) <= discoveries (log (promoted m dcm)))%nat.
Proof.
  destruct (cache_series_budget m) as [Hb Hm].
  unfold scans_budget in *. cbn [promoted self log _series].
  rewrite cache_series_cached in Hb. lia.
Qed.

Lemma perform_budget (c : call) (m : machine) (w : world) :
  scans_budget (snd (perform c (with_os m w))) = scans_budget m /\
  (discoveries (log m) <= discoveries (log (snd (perform c (with_os m w)))))%nat.
Proof.
  change (scans_budget m) with (scans_budget (with_os m w)).
  change (log m) with (log (with_os m w)).
  destruct (perform_state c (with_os m w)) as [-> | [-> | [dcm ->]]].
  - split; reflexivity.
  - apply cache_series_budget.
  - apply promoted_budget.
Qed.

Lemma session_budget (steps : list (world * call)) (m : machine) :
  scans_budget (session steps m) = scans_budget m /\
  (discoveries (log m) <= discoveries (log (session steps m)))%nat.
Proof.
  revert m. induction steps as [| [w c] rest IH]; intros m; cbn [session].
  - split; reflexivity.
  - destruct (IH (snd (perform c (with_os m w)))) as [Hb Hm].
    destruct (perform_budget c m w) as [Hb' Hm'].
    split; [congruence | lia].
Qed.

(** C8: a call of [_get_length], [_get_data i] or [_get_meta_data i] that is
    repeated answers as it did the first time, even if the outside world
    changed in between; over a whole session of such calls, in any order and
    with the outside world changing before each, the directory scan runs at
    most once; and once the catalog is cached the [series] property answers
    with the cached value, changes nothing and scans no more.  The first
    access does compute it: while nothing is cached, the [series] property
    runs the directory scan with the reader's request and progress
    indicator, logs that one scan, answers with its result and caches it;
    and the first call of any of the three methods on a reader without data
    makes exactly that one scan and leaves its result cached. *)
Theorem discovery_runs_once (m : machine) :
  (forall c w, fst (perform c (with_os (snd (perform c m)) w)) = fst (perform c m)) /\
  (forall steps,
      (discoveries (log (session steps m)) <= discoveries (log m) + 1)%nat) /\
  (forall steps,
      _series (self m) = None -> discoveries (log m) = 0%nat ->
      (discoveries (log (session steps m)) <= 1)%nat) /\
  (forall cat w,
      _series (self m) = Some cat ->
      series (with_os m w) = (Return cat, with_os m w)) /\
  (forall cat steps,
      _series (self m) = Some cat ->
      discoveries (log (session steps m)) = discoveries (log m)) /\
  (_series (self m) = None ->
   fst (series m) =
     Return (process_directory (os m) (self_request (self m))
                               (_progressIndicator (self m))) /\
   _series (self (snd (series m))) =
     Some (process_directory (os m) (self_request (self m))
                             (_progressIndicator (self m))) /\
   log (snd (series m)) =
     List.app (log m) [Discovered (self_request (self m))]) /\
  (forall c,
      _series (self m) = None -> _data (self m) = None ->
      _series (self (snd (perform c m))) =
        Some (process_directory (os m) (self_request (self m))
                                (_progressIndicator (self m))) /\
      log (snd (perform c m)) =
        List.app (log m) [Discovered (self_request (self m))]).
Proof.
  split; [| split; [| split; [| split; [| split; [| split]]]]].
  - intros c w. apply perform_again.
  - intros steps. destruct (session_budget steps m) as [Hb _].
    unfold scans_budget in Hb.
    destruct (_series (self m)), (_series (self (session steps m))); lia.
  - intros steps Hs H0. destruct (session_budget steps m) as [Hb _].
    unfold scans_budget in Hb. rewrite Hs, H0 in Hb.
    destruct (_series (self (session steps m))); lia.
  - intros cat w Hs. now apply series_cached.
  - intros cat steps Hs. destruct (session_budget steps m) as [Hb Hm].
    unfold scans_budget in Hb. rewrite Hs in Hb.
    destruct (_series (self (session steps m))); lia.
  - intros Hs. rewrite series_run. unfold catalog_of, cache_series.
    rewrite Hs. cbn [fst snd self log _series]. unfold catalog_of.
    rewrite Hs. repeat split.
  - intros c Hs Hd.
    assert (Hcache : _series (self (cache_series m)) =
                       Some (process_directory (os m) (self_request (self m))
                                               (_progressIndicator (self m))) /\
                     log (cache_series m) =
                       List.app (log m) [Discovered (self_request (self m))]).
    { unfold cache_series, catalog_of. rewrite Hs. split; reflexivity. }
    assert (Hcat : catalog_of m =
                   process_directory (os m) (self_request (self m))
                                     (_progressIndicator (self m)))
      by (unfold catalog_of; now rewrite Hs).
    destruct (perform_unloaded c m Hd) as [Hsome Hnone].
    destruct (first_dataset (catalog_of m)) as [dcm |] eqn:Hf.
    + rewrite (Hsome dcm eq_refl). cbn [promoted self log _series].
      rewrite Hcat. split; [reflexivity | apply Hcache].
    + rewrite (Hnone eq_refl). exact Hcache.
Qed.

(** The single scan on the directory of the fixtures: two calls, the
    directory replaced by another world in between. *)
Lemma discovery_runs_once_witness :
  _series (self (Fixtures.on_dir "rI")) = None /\
  (discoveries
     (log (session [(Fixtures.posix, Length);
                    (Fixtures.with_dcmtk [], Data 4)]
                   (Fixtures.on_dir "rI"))) <= 1)%nat.
Proof.
  split; [reflexivity |].
  destruct (discovery_runs_once (Fixtures.on_dir "rI")) as (_ & _ & H & _).
  apply H; reflexivity.
Defined.

(** ** Opening *)

(** The name under which [get_dcmdjpeg_exe] looks for the tool. *)
Definition dcmdjpeg_name (w : world) : string :=
  ("dcmdjpeg" ++ str_times ".exe" (startswith (platform w) "win"))%string.

(** A state with another outside world and more log. *)
Definition moved (m : machine) (w : world) (evs : list event) : machine :=
  mkMachine (self m) w (List.app (log m) evs).

(** What [get_dcmdjpeg_exe] finds in a world, the world it leaves and the
    processes it started. *)
Definition locate_exe (w : world) : option string * world * list event :=
  match find (fun dir => isfile w (path_join w dir (dcmdjpeg_name w)))
             dcmtk_dirs with
  | Some dir => (Some (path_join w dir (dcmdjpeg_name w)), w, [])
  | None =>
      match check_call w [dcmdjpeg_name w; "--version"] with
      | Some writes =>
          (Some (dcmdjpeg_name w), write_files w writes,
           [Spawned [dcmdjpeg_name w; "--version"]])
      | None => (None, w, [Spawned [dcmdjpeg_name w; "--version"]])
      end
  end.

Lemma moved_nil (m : machine) : moved m (os m) [] = m.
Proof. destruct m. unfold moved. simpl. now rewrite app_nil_r. Qed.

Lemma get_dcmdjpeg_exe_run (m : machine) :
  get_dcmdjpeg_exe m =
    let '(exe, w, evs) := locate_exe (os m) in (Return exe, moved m w evs).
Proof.
  unfold get_dcmdjpeg_exe, locate_exe. unfold bind at 1, get_os at 1.
  cbv beta iota. fold (dcmdjpeg_name (os m)).
  destruct (find _ dcmtk_dirs) as [dir |].
  - unfold ret. now rewrite moved_nil.
  - unfold try_except, subprocess_check_call.
    cbv beta iota zeta delta [bind ret raise emit get_os put_os].
    cbn [self os log].
    destruct (check_call (os m) [dcmdjpeg_name (os m); "--version"]);
      reflexivity.
Qed.

Lemma write_files_check_call (w : world) (writes : list (string * result dataset)) :
  check_call (write_files w writes) = check_call w.
Proof.
  unfold write_files. revert w.
  induction writes as [| fw rest IH]; intros w; simpl; [reflexivity |].
  now rewrite IH.
Qed.

Lemma write_files_isdir (w : world) (writes : list (string * result dataset)) :
  isdir (write_files w writes) = isdir w.
Proof.
  unfold write_files. revert w.
  induction writes as [| fw rest IH]; intros w; simpl; [reflexivity |].
  now rewrite IH.
Qed.

Lemma locate_exe_check_call (w : world) :
  check_call (snd (fst (locate_exe w))) = check_call w.
Proof.
  unfold locate_exe. destruct (find _ dcmtk_dirs); [reflexivity |].
  destruct (check_call w _); [apply write_files_check_call | reflexivity].
Qed.

Lemma dcmdjpeg_name_not_empty (w : world) :
  String.eqb (dcmdjpeg_name w) "" = false.
Proof. reflexivity. Qed.

Lemma locate_exe_not_empty (w : world) (exe : string) :
  fst (fst (locate_exe w)) = Some exe -> not_exe (Some exe) = false.
Proof.
  unfold locate_exe, not_exe.
  destruct (find _ dcmtk_dirs) as [dir |] eqn:Efind.
  - intros [= <-]. apply find_some in Efind. destruct Efind as [Hin _].
    unfold dcmtk_dirs in Hin. simpl in Hin.
    destruct Hin as [<- | [<- | [<- | [<- | []]]]]; reflexivity.
  - destruct (check_call w _); intros [= <-].
    apply dcmdjpeg_name_not_empty.
Qed.

Definition converted : string :=
  "DICOM file contained compressed data. Used dcmtk to convert it.".

(** The recovery of a JPEG-compressed file, from the state [m1] in which
    the parser raised [err]. *)
Definition recovery (m1 : machine) (fn : string) (err : exn)
  : result dataset * machine :=
  let '(exe, w1, evs) := locate_exe (os m1) in
  match exe with
  | None => (Raise err, moved m1 w1 evs)
  | Some e =>
      let cmd := [e; fn; (fn ++ ".raw")%string] in
      match check_call w1 cmd with
      | None => (Raise err, moved m1 w1 (List.app evs [Spawned cmd]))
      | Some writes =>
          let w2 := write_files w1 writes in
          (SimpleDicomReader w2 (fn ++ ".raw")%string,
           moved m1 w2
                 (List.app evs [Spawned cmd; Printed converted;
                                Parsed (fn ++ ".raw")%string]))
      end
  end.

(** How [_open] comes by the dataset of a file. *)
Definition acquire (m : machine) (fn : string) : result dataset * machine :=
  let m1 := moved m (os m) [Parsed fn] in
  match SimpleDicomReader (os m) fn with
  | Return dcm => (Return dcm, m1)
  | Raise (CompressedDicom msg) =>
      if contains "JPEG" msg then recovery m1 fn (CompressedDicom msg)
      else (Raise (CompressedDicom msg), m1)
  | Raise e => (Raise e, m1)
  end.

(** The progress indicator [_open] settles on. *)
Definition configured (progress : pyvalue) : result indicator :=
  match is_indicator progress with
  | Some p => Return p
  | None =>
      if is_True progress then Return (StdoutProgressIndicator "Reading DICOM")
      else match in_None_False progress with
           | Return true => Return (BaseProgressIndicator "Dummy")
           | Return false => Raise (ValueError "Invalid value for progress.")
           | Raise e => Raise e
           end
  end.

(** The end of [_open], after the source gave [inf] and [dat]. *)
Definition opened (m : machine) (inf : option metadata) (dat : option ndarray)
    (progress : pyvalue) : result unit * machine :=
  match configured progress with
  | Return p =>
      (Return tt,
       mkMachine (mkReader (self_request (self m)) inf dat None (Some p))
                 (os m) (log m))
  | Raise e =>
      (Raise e,
       mkMachine (mkReader (self_request (self m)) inf dat None
                           (_progressIndicator (self m)))
                 (os m) (log m))
  end.

Lemma moved_moved (m : machine) (w w' : world) (a b : list event) :
  moved (moved m w a) w' b = moved m w' (List.app a b).
Proof. unfold moved. simpl. now rewrite app_assoc. Qed.

Lemma finish_open (m : machine) (inf : option metadata) (dat : option ndarray)
    (progress : pyvalue) :
  (set_info inf ;;; set_data dat ;;; set_series None ;;;
   match is_indicator progress with
   | Some p => set_progressIndicator (Some p)
   | None =>
       if is_True progress then
         set_progressIndicator (Some (StdoutProgressIndicator "Reading DICOM"))
       else
         none_or_false <- lift (in_None_False progress) ;;
         if none_or_false then
           set_progressIndicator (Some (BaseProgressIndicator "Dummy"))
         else raise (ValueError "Invalid value for progress.")
   end) m = opened m inf dat progress.
Proof.
  unfold opened, configured.
  destruct (is_indicator progress) as [p |];
    [| destruct (is_True progress);
       [| destruct (in_None_False progress) as [[|] | e]]];
    reflexivity.
Qed.

Lemma bind_assoc {A B C : Type} (c : M A) (k : A -> M B) (h : B -> M C) :
  forall m, bind (bind c k) h m = bind c (fun a => bind (k a) h) m.
Proof.
  intros m. unfold bind. destruct (c m) as [[a | e] m']; reflexivity.
Qed.

Lemma recover_run (m1 : machine) (fn : string) (err : exn) :
  (exe <- get_dcmdjpeg_exe ;;
   if not_exe exe then raise err
   else
     try_except
       (subprocess_check_call
          [match exe with Some e => e | None => "" end; fn; (fn ++ ".raw")%string])
       (fun _ => Some (raise err)) ;;;
     emit (Printed converted) ;;;
     read_dicom (fn ++ ".raw")%string) m1 = recovery m1 fn err.
Proof.
  unfold bind at 1. rewrite get_dcmdjpeg_exe_run. unfold recovery.
  pose proof (locate_exe_not_empty (os m1)) as Hne.
  pose proof (locate_exe_check_call (os m1)) as Hcc.
  destruct (locate_exe (os m1)) as [[exe w1] evs]. cbn [fst snd] in *.
  destruct exe as [e |]; [| reflexivity].
  rewrite (Hne e eq_refl).
  unfold try_except, subprocess_check_call, read_dicom.
  cbv beta iota zeta delta [bind ret raise emit get_os put_os lift].
  cbn [self os log moved].
  destruct (check_call w1 [e; fn; (fn ++ ".raw")%string]) as [writes |].
  - unfold moved. cbn [self os log]. rewrite <- !app_assoc. reflexivity.
  - unfold moved. cbn [self os log]. rewrite <- !app_assoc. reflexivity.
Qed.

Lemma acquire_run (m : machine) (fn : string) :
  try_except (read_dicom fn)
    (fun err =>
       match err with
       | CompressedDicom _ =>
           Some (if contains "JPEG" (str err) then
                   exe <- get_dcmdjpeg_exe ;;
                   if not_exe exe then raise err
                   else
                     try_except
                       (subprocess_check_call
                          [match exe with Some e => e | None => "" end;
                           fn; (fn ++ ".raw")%string])
                       (fun _ => Some (raise err)) ;;;
                     emit (Printed converted) ;;;
                     read_dicom (fn ++ ".raw")%string
                 else raise err)
       | _ => None
       end) m = acquire m fn.
Proof.
  unfold acquire, try_except at 1, read_dicom at 1.
  cbv beta iota zeta delta [bind ret raise emit get_os lift].
  cbn [self os log].
  fold (moved m (os m) [Parsed fn]).
  destruct (SimpleDicomReader (os m) fn) as [dcm | e]; [reflexivity |].
  destruct e; try reflexivity.
  cbn [str]. destruct (contains "JPEG" msg); [| reflexivity].
  apply recover_run.
Qed.

(** [_open], step by step. *)
Lemma open_run (progress : pyvalue) (m : machine) :
  _open progress m =
    let fn := filename (self_request (self m)) in
    if isdir (os m) fn then opened m (Some []) None progress
    else match acquire m fn with
         | (Return dcm, m1) =>
             opened m1 (Some (dcm_info dcm)) (Some (dcm_array dcm)) progress
         | (Raise e, m1) => (Raise e, m1)
         end.
Proof.
  unfold _open. unfold bind at 1, get_self at 1. cbv beta iota.
  unfold bind at 1, get_os at 1. cbv beta iota zeta.
  destruct (isdir (os m) (filename (self_request (self m)))).
  - rewrite bind_assoc. apply finish_open.
  - rewrite bind_assoc. unfold bind at 1.
    fold converted. rewrite acquire_run.
    destruct (acquire m (filename (self_request (self m)))) as [[dcm | e] m1];
      [| reflexivity].
    rewrite bind_assoc. apply finish_open.
Qed.

(** ** Recovery of compressed files *)

(** The parse failures that start the recovery: [CompressedDicom] with
    "JPEG" in its message. *)
Definition names_jpeg (e : exn) : bool :=
  match e with
  | CompressedDicom msg => contains "JPEG" msg
  | _ => false
  end.

Lemma acquire_no_recovery (m : machine) (fn : string) (e : exn) :
  SimpleDicomReader (os m) fn = Raise e -> names_jpeg e = false ->
  acquire m fn = (Raise e, moved m (os m) [Parsed fn]).
Proof.
  intros Hp Hj. unfold acquire. rewrite Hp.
  destruct e; try reflexivity. cbn [names_jpeg] in Hj. now rewrite Hj.
Qed.

Lemma acquire_recovery (m : machine) (fn msg : string) :
  SimpleDicomReader (os m) fn = Raise (CompressedDicom msg) ->
  contains "JPEG" msg = true ->
  acquire m fn = recovery (moved m (os m) [Parsed fn]) fn (CompressedDicom msg).
Proof. intros Hp Hj. unfold acquire. now rewrite Hp, Hj. Qed.

(** The conversion command of [_open]. *)
Definition conversion (exe fn : string) : list string :=
  [exe; fn; (fn ++ ".raw")%string].

Lemma recovery_converted (m1 : machine) (fn : string) (err : exn)
    (exe : string) (w1 : world) (evs : list event)
    (writes : list (string * result dataset)) :
  locate_exe (os m1) = (Some exe, w1, evs) ->
  check_call (os m1) (conversion exe fn) = Some writes ->
  recovery m1 fn err =
    (SimpleDicomReader (write_files w1 writes) (fn ++ ".raw")%string,
     moved m1 (write_files w1 writes)
           (List.app evs [Spawned (conversion exe fn); Printed converted;
                          Parsed (fn ++ ".raw")%string])).
Proof.
  intros Hl Hc. unfold recovery.
  pose proof (locate_exe_check_call (os m1)) as Hcc. rewrite Hl in *.
  cbn [fst snd] in Hcc. fold (conversion exe fn). now rewrite Hcc, Hc.
Qed.

(** C7: on a file source, a parse failure that is not a [CompressedDicom]
    naming JPEG is raised as it is, with nothing done but the one parse (no
    process started, the outside world untouched); and when the converted
    file fails to parse, with whatever error, a second compression error
    included, that error is raised and the log shows two parses and one
    conversion: the recovery is not tried again. *)
Theorem recovery_only_for_jpeg_and_once (m : machine) (progress : pyvalue) :
  isdir (os m) (filename (self_request (self m))) = false ->
  (forall e,
      SimpleDicomReader (os m) (filename (self_request (self m))) = Raise e ->
      names_jpeg e = false ->
      _open progress m =
        (Raise e, moved m (os m) [Parsed (filename (self_request (self m)))])) /\
  (forall msg exe w1 evs writes e2,
      SimpleDicomReader (os m) (filename (self_request (self m)))
        = Raise (CompressedDicom msg) ->
      contains "JPEG" msg = true ->
      locate_exe (os m) = (Some exe, w1, evs) ->
      check_call (os m) (conversion exe (filename (self_request (self m))))
        = Some writes ->
      SimpleDicomReader (write_files w1 writes)
                        (filename (self_request (self m)) ++ ".raw")%string
        = Raise e2 ->
      fst (_open progress m) = Raise e2 /\
      log (snd (_open progress m)) =
        List.app (log m)
          (Parsed (filename (self_request (self m))) ::
           List.app evs
             [Spawned (conversion exe (filename (self_request (self m))));
              Printed converted;
              Parsed (filename (self_request (self m)) ++ ".raw")%string])).
Proof.
  intros Hdir. split.
  - intros e Hp Hj. rewrite open_run. cbv zeta. rewrite Hdir.
    now rewrite (acquire_no_recovery m _ e Hp Hj).
  - intros msg exe w1 evs writes e2 Hp Hj Hl Hc Hp2.
    rewrite open_run. cbv zeta. rewrite Hdir.
    rewrite (acquire_recovery m _ msg Hp Hj).
    rewrite (recovery_converted (moved m (os m) [Parsed _]) _ _
               exe w1 evs writes Hl Hc), Hp2.
    cbn [fst snd]. split; [reflexivity |].
    unfold moved. cbn [log]. now rewrite <- app_assoc.
Qed.

(** C7 on the fixtures: a file compressed with RLE is not recovered, although
    dcmtk is installed. *)
Lemma recovery_only_for_jpeg_and_once_witness :
  isdir (os (mkMachine (Fixtures.fresh "rle.dcm" "ri") (Fixtures.with_dcmtk []) []))
        "rle.dcm" = false /\
  log (snd (_open (PyBool true)
              (mkMachine (Fixtures.fresh "rle.dcm" "ri") (Fixtures.with_dcmtk []) [])))
    = [Parsed "rle.dcm"].
Proof.
  split; [reflexivity |].
  destruct (recovery_only_for_jpeg_and_once
              (mkMachine (Fixtures.fresh "rle.dcm" "ri") (Fixtures.with_dcmtk []) [])
              (PyBool true) eq_refl) as [H _].
  rewrite (H _ eq_refl eq_refl). reflexivity.
Defined.

Lemma opened_request (m : machine) (inf : option metadata)
    (dat : option ndarray) (progress : pyvalue) :
  self_request (self (snd (opened m inf dat progress))) = self_request (self m).
Proof. unfold opened. destruct (configured progress); reflexivity. Qed.

Lemma opened_ok (m : machine) (inf : option metadata) (dat : option ndarray)
    (progress : pyvalue) (p : indicator) :
  configured progress = Return p ->
  opened m inf dat progress =
    (Return tt,
     mkMachine (mkReader (self_request (self m)) inf dat None (Some p))
               (os m) (log m)).
Proof. intros H. unfold opened. now rewrite H. Qed.

(** The sentence of the specification on a successful recovery: after it,
    [data(0)] returns the decompressed content. *)
Definition recovery_claim (m : machine) (progress : pyvalue) : Prop :=
  forall msg exe w1 evs writes dcm,
    SimpleDicomReader (os m) (filename (self_request (self m)))
      = Raise (CompressedDicom msg) ->
    contains "JPEG" msg = true ->
    locate_exe (os m) = (Some exe, w1, evs) ->
    check_call (os m) (conversion exe (filename (self_request (self m))))
      = Some writes ->
    SimpleDicomReader (write_files w1 writes)
                      (filename (self_request (self m)) ++ ".raw")%string
      = Return dcm ->
    fst (_open progress m) = Return tt /\
    fst (_get_data 0 (snd (_open progress m)))
      = Return (dcm_array dcm, Some (dcm_info dcm)).

(** C6, as stated, fails in MultiImage mode: the JPEG file of the fixtures is
    converted and loaded, yet [data(0)] is resolved through the catalog of
    its directory and hands out the first file found there. *)
Lemma recovery_claim_fails_in_multi_image :
  fst (_open (PyBool true)
         (mkMachine (Fixtures.fresh "jpeg.dcm" "rI")
                    (Fixtures.with_dcmtk [Fixtures.serie0]) []))
    = Return tt /\
  _data (self (snd (_open (PyBool true)
                      (mkMachine (Fixtures.fresh "jpeg.dcm" "rI")
                                 (Fixtures.with_dcmtk [Fixtures.serie0]) []))))
    = Some (dcm_array Fixtures.decoded) /\
  fst (_get_data 0
         (snd (_open (PyBool true)
                 (mkMachine (Fixtures.fresh "jpeg.dcm" "rI")
                            (Fixtures.with_dcmtk [Fixtures.serie0]) []))))
    = Return (dcm_array (Fixtures.dcm 0), Some (dcm_info (Fixtures.dcm 0))) /\
  ~ recovery_claim (mkMachine (Fixtures.fresh "jpeg.dcm" "rI")
                              (Fixtures.with_dcmtk [Fixtures.serie0]) [])
                   (PyBool true).
Proof.
  split; [reflexivity | split; [reflexivity | split; [reflexivity |]]].
  intros H.
  destruct (H _ "dcmdjpeg" (Fixtures.with_dcmtk [Fixtures.serie0])
              [Spawned ["dcmdjpeg"; "--version"]]
              [("jpeg.dcm.raw", Return Fixtures.decoded)] Fixtures.decoded
              eq_refl eq_refl eq_refl eq_refl eq_refl) as [_ Hd].
  vm_compute in Hd. discriminate.
Qed.

Lemma recovery_unavailable (m1 : machine) (fn : string) (err : exn) :
  fst (fst (locate_exe (os m1))) = None \/
  (exists exe, fst (fst (locate_exe (os m1))) = Some exe /\
               check_call (os m1) (conversion exe fn) = None) ->
  fst (recovery m1 fn err) = Raise err.
Proof.
  intros H. unfold recovery.
  pose proof (locate_exe_check_call (os m1)) as Hcc.
  destruct (locate_exe (os m1)) as [[exe w1] evs]. cbn [fst snd] in *.
  destruct H as [-> | (e & -> & Hc)]; [reflexivity |].
  fold (conversion e fn). now rewrite Hcc, Hc.
Qed.

(** C6 (amended in its last part): on a file whose parse fails with a
    [CompressedDicom] naming JPEG, [_open] raises that very exception when
    no [dcmdjpeg] is found and when its invocation fails.  When the tool is
    found and succeeds, the converted file parses and the progress value is
    accepted, [_open] returns with the converted file's metadata and buffer
    loaded; [data(0)] then returns that content in SingleImage mode (the
    whole buffer, or slice 0 of a multi-slice one) and, for a multi-slice
    buffer, on the index-0 path of the other modes (slice 0 in MultiImage
    mode, the whole buffer in the volume modes).  Elsewhere, that is in
    MultiImage and the volume modes with a buffer that is not multi-slice,
    [data(0)] is answered from the series catalog: it is the first item of
    the flattened scan of the directory, or the first series of that scan,
    and a bounds error when the scan found nothing. *)
Theorem jpeg_recovery (m : machine) (progress : pyvalue) (msg : string) :
  isdir (os m) (filename (self_request (self m))) = false ->
  SimpleDicomReader (os m) (filename (self_request (self m)))
    = Raise (CompressedDicom msg) ->
  contains "JPEG" msg = true ->
  (fst (fst (locate_exe (os m))) = None ->
   fst (_open progress m) = Raise (CompressedDicom msg)) /\
  (forall exe,
      fst (fst (locate_exe (os m))) = Some exe ->
      check_call (os m) (conversion exe (filename (self_request (self m))))
        = None ->
      fst (_open progress m) = Raise (CompressedDicom msg)) /\
  (forall exe w1 evs writes dcm p,
      locate_exe (os m) = (Some exe, w1, evs) ->
      check_call (os m) (conversion exe (filename (self_request (self m))))
        = Some writes ->
      SimpleDicomReader (write_files w1 writes)
                        (filename (self_request (self m)) ++ ".raw")%string
        = Return dcm ->
      configured progress = Return p ->
      fst (_open progress m) = Return tt /\
      _info (self (snd (_open progress m))) = Some (dcm_info dcm) /\
      _data (self (snd (_open progress m))) = Some (dcm_array dcm) /\
      (mode_char m = Some "i"%char -> slice_count (dcm_array dcm) <= 1 ->
       fst (_get_data 0 (snd (_open progress m)))
         = Return (dcm_array dcm, Some (dcm_info dcm))) /\
      (mode_char m = Some "i"%char \/ mode_char m = Some "I"%char ->
       1 < slice_count (dcm_array dcm) ->
       fst (_get_data 0 (snd (_open progress m)))
         = map_result (fun x => (x, Some (dcm_info dcm)))
                      (getitem (dcm_array dcm) 0)) /\
      (mode_char m = Some "v"%char \/ mode_char m = Some "V"%char ->
       1 < slice_count (dcm_array dcm) ->
       fst (_get_data 0 (snd (_open progress m)))
         = Return (dcm_array dcm, Some (dcm_info dcm))) /\
      (mode_char m = Some "I"%char ->
       slice_count (dcm_array dcm) <= 1 ->
       fst (_get_data 0 (snd (_open progress m)))
         = pick (flatten (process_directory (os (snd (_open progress m)))
                                            (self_request (self m)) (Some p)))
                0 (fun d => (dcm_array d, Some (dcm_info d)))) /\
      (mode_char m = Some "v"%char \/ mode_char m = Some "V"%char ->
       slice_count (dcm_array dcm) <= 1 ->
       fst (_get_data 0 (snd (_open progress m)))
         = pick (process_directory (os (snd (_open progress m)))
                                   (self_request (self m)) (Some p))
                0 (fun s => (serie_array s, Some (serie_info s))))).
Proof.
  intros Hdir Hp Hj.
  assert (Hopen : _open progress m =
            match recovery (moved m (os m)
                              [Parsed (filename (self_request (self m)))])
                           (filename (self_request (self m)))
                           (CompressedDicom msg) with
            | (Return dcm, m1) =>
                opened m1 (Some (dcm_info dcm)) (Some (dcm_array dcm)) progress
            | (Raise e, m1) => (Raise e, m1)
            end).
  { rewrite open_run. cbv zeta. rewrite Hdir.
    now rewrite (acquire_recovery m _ msg Hp Hj). }
  split; [| split].
  - intros Hnone.
    pose proof (recovery_unavailable
                  (moved m (os m) [Parsed (filename (self_request (self m)))])
                  (filename (self_request (self m))) (CompressedDicom msg)
                  (or_introl Hnone)) as Hr.
    rewrite Hopen. destruct (recovery _ _ _) as [r m1]. cbn [fst] in Hr.
    now subst r.
  - intros exe Hl Hc.
    pose proof (recovery_unavailable
                  (moved m (os m) [Parsed (filename (self_request (self m)))])
                  (filename (self_request (self m))) (CompressedDicom msg)
                  (or_intror (ex_intro _ exe (conj Hl Hc)))) as Hr.
    rewrite Hopen. destruct (recovery _ _ _) as [r m1]. cbn [fst] in Hr.
    now subst r.
  - intros exe w1 evs writes dcm p Hl Hc Hp2 Hconf.
    rewrite Hopen.
    rewrite (recovery_converted (moved m (os m) [Parsed _]) _ _
               exe w1 evs writes Hl Hc), Hp2.
    rewrite (opened_ok _ _ _ _ p Hconf). cbn [fst snd self _info _data].
    split; [reflexivity | split; [reflexivity | split; [reflexivity |]]].
    set (m' := mkMachine _ _ _).
    assert (Hd : _data (self m') = Some (dcm_array dcm)) by reflexivity.
    assert (Hm : mode_char m' = mode_char m) by reflexivity.
    assert (Hdata : _get_data 0 m' =
                    run_answer (data_answer (mode_char m) (dcm_array dcm)
                                            (Some (dcm_info dcm)) 0) m').
    { rewrite (get_data_answer m' _ 0 Hd), Hm. reflexivity. }
    cbn [os].
    assert (Hcat : catalog_of m' =
                   process_directory (write_files w1 writes)
                                     (self_request (self m)) (Some p))
      by reflexivity.
    rewrite Hdata. split; [| split; [| split; [| split]]].
    + intros -> Hn. rewrite data_answer_i.
      destruct (Z.ltb_spec 1 (slice_count (dcm_array dcm))); [lia |].
      reflexivity.
    + intros [-> | ->] Hn.
      * rewrite data_answer_i.
        destruct (Z.ltb_spec 1 (slice_count (dcm_array dcm))); [| lia].
        reflexivity.
      * rewrite data_answer_I. cbn [Z.eqb andb].
        destruct (Z.ltb_spec 1 (slice_count (dcm_array dcm))); [| lia].
        reflexivity.
    + intros Hv Hn.
      assert (exists c, mode_char m = Some c /\ (c = "v"%char \/ c = "V"%char))
        as (c & -> & Hc') by (destruct Hv as [-> | ->]; eauto).
      rewrite (data_answer_vV c _ _ _ Hc'). cbn [Z.eqb andb].
      destruct (Z.ltb_spec 1 (slice_count (dcm_array dcm))); [| lia].
      reflexivity.
    + intros -> Hn. rewrite data_answer_I, fast_path_off by exact Hn.
      cbn [run_answer fst]. now rewrite Hcat.
    + intros Hv Hn.
      assert (exists c, mode_char m = Some c /\ (c = "v"%char \/ c = "V"%char))
        as (c & -> & Hc') by (destruct Hv as [-> | ->]; eauto).
      rewrite (data_answer_vV c _ _ _ Hc'), fast_path_off by exact Hn.
      cbn [run_answer fst]. now rewrite Hcat.
Qed.

(** The amended C6 on the fixtures: without dcmtk, opening the JPEG file
    raises the parser's exception. *)
Lemma jpeg_recovery_witness :
  isdir Fixtures.posix "jpeg.dcm" = false /\
  fst (_open (PyBool true)
         (mkMachine (Fixtures.fresh "jpeg.dcm" "ri") Fixtures.posix []))
    = Raise (CompressedDicom
        "The dicom reader can only read files with uncompressed image data - not JPEG").
Proof.
  split; [reflexivity |].
  destruct (jpeg_recovery
              (mkMachine (Fixtures.fresh "jpeg.dcm" "ri") Fixtures.posix [])
              (PyBool true) _ eq_refl eq_refl eq_refl) as [H _].
  apply H. reflexivity.
Defined.

(** ** Configuration errors *)


(** The progress values [_open] takes: an indicator object, [True], and
    whatever is [None] or compares equal to [None] or [False]. *)
Definition accepted (p : pyvalue) : Prop :=
  (exists ind, p = PyIndicator ind) \/ p = PyBool true \/
  in_None_False p = Return true.

(** The progress values the three tests of [_open] turn down. *)
Definition rejected (p : pyvalue) : Prop :=
  is_indicator p = None /\ is_True p = false /\
  in_None_False p = Return false.

(** The progress values whose comparison with [None] or [False] raises. *)
Definition uncomparable (p : pyvalue) (e : exn) : Prop :=
  is_indicator p = None /\ is_True p = false /\ in_None_False p = Raise e.

(** [_open] refuses [p] with [err]: the [ValueError] of the progress check,
    or the exception of the comparison. *)
Definition refusal (p : pyvalue) (err : exn) : Prop :=
  (rejected p /\ err = ValueError "Invalid value for progress.") \/
  uncomparable p err.



Lemma configured_accepted (p : pyvalue) :
  accepted p -> returns (configured p).
Proof.
  unfold configured.
  intros [[ind ->] | [-> | H]]; [eexists; reflexivity .. |].
  destruct (is_indicator p); [eexists; reflexivity |].
  destruct (is_True p); [eexists; reflexivity |].
  rewrite H. eexists. reflexivity.
Qed.

Lemma configured_refusal (p : pyvalue) (err : exn) :
  refusal p err -> configured p = Raise err.
Proof.
  unfold configured.
  intros [[(Hi & Ht & Hc) ->] | (Hi & Ht & Hc)]; now rewrite Hi, Ht, Hc.
Qed.







(** * Further properties of the module *)

(** ** Locating [dcmdjpeg] *)

Module Windows.

(** A Windows machine with dcmtk under "c:\Program Files\dcmtk" and no
    [dcmdjpeg] on the command path. *)
Definition w32 : world :=
  mkWorld "win32" "\"
    (fun _ => false)
    (fun f => String.eqb f "c:\Program Files\dcmtk\dcmdjpeg.exe")
    (fun _ => Raise (NotADicomFile "Not a valid DICOM file."))
    (fun _ _ => [])
    (fun _ => None).

Definition idle : machine :=
  mkMachine (mkReader (Request "x.dcm" "ri") None None None None) w32 [].

End Windows.

Lemma find_first {A : Type} (f : A -> bool) (done rest : list A) (x : A) :
  (forall y, In y done -> f y = false) -> f x = true ->
  find f (List.app done (x :: rest)) = Some x.
Proof.
  intros Hdone Hx. induction done as [| y done IH]; simpl.
  - now rewrite Hx.
  - rewrite (Hdone y (or_introl eq_refl)). apply IH.
    intros z Hz. apply Hdone. now right.
Qed.

Lemma find_none {A : Type} (f : A -> bool) (l : list A) :
  (forall y, In y l -> f y = false) -> find f l = None.
Proof.
  intros H. induction l as [| y l IH]; simpl; [reflexivity |].
  rewrite (H y (or_introl eq_refl)). apply IH.
  intros z Hz. apply H. now right.
Qed.

(** X1: [get_dcmdjpeg_exe] answers with the first of the four install
    directories, in the order of the source, that holds the tool; it then
    starts no process and changes nothing. *)
Theorem exe_lookup_installed (m : machine) (done rest : list string)
    (dir : string) :
  dcmtk_dirs = List.app done (dir :: rest) ->
  (forall d, In d done ->
             isfile (os m) (path_join (os m) d (dcmdjpeg_name (os m))) = false) ->
  isfile (os m) (path_join (os m) dir (dcmdjpeg_name (os m))) = true ->
  get_dcmdjpeg_exe m =
    (Return (Some (path_join (os m) dir (dcmdjpeg_name (os m)))), m).
Proof.
  intros Hdirs Hdone Hdir. rewrite get_dcmdjpeg_exe_run. unfold locate_exe.
  rewrite Hdirs.
  rewrite (find_first
             (fun d => isfile (os m) (path_join (os m) d (dcmdjpeg_name (os m))))
             done rest dir Hdone Hdir).
  now rewrite moved_nil.
Qed.

(** X1 on the Windows fixture: the third directory holds the tool. *)
Lemma exe_lookup_installed_witness :
  isfile Windows.w32 "c:\Program Files\dcmtk\dcmdjpeg.exe" = true /\
  fst (get_dcmdjpeg_exe Windows.idle)
    = Return (Some "c:\Program Files\dcmtk\dcmdjpeg.exe").
Proof.
  split; [reflexivity |].
  rewrite (exe_lookup_installed Windows.idle
             ["c:\dcmtk"; "c:\Program Files"]
             ["c:\Program Files (x86)\dcmtk"]
             "c:\Program Files\dcmtk" eq_refl).
  - reflexivity.
  - intros d [<- | [<- | []]]; reflexivity.
  - reflexivity.
Defined.

(** X2: when none of the install directories holds the tool,
    [get_dcmdjpeg_exe] starts exactly one process, the version probe of the
    bare command name, and answers with that name if the probe succeeds and
    with [None] if it fails. *)
Theorem exe_lookup_probe (m : machine) :
  (forall d, In d dcmtk_dirs ->
             isfile (os m) (path_join (os m) d (dcmdjpeg_name (os m))) = false) ->
  fst (get_dcmdjpeg_exe m) =
    Return (match check_call (os m) [dcmdjpeg_name (os m); "--version"] with
            | Some _ => Some (dcmdjpeg_name (os m))
            | None => None
            end) /\
  log (snd (get_dcmdjpeg_exe m)) =
    List.app (log m) [Spawned [dcmdjpeg_name (os m); "--version"]].
Proof.
  intros Hnone. rewrite get_dcmdjpeg_exe_run. unfold locate_exe.
  rewrite (find_none _ dcmtk_dirs Hnone).
  destruct (check_call (os m) [dcmdjpeg_name (os m); "--version"]);
    split; reflexivity.
Qed.

(** X2 on the POSIX fixture without dcmtk: the probe fails. *)
Lemma exe_lookup_probe_witness :
  check_call Fixtures.posix ["dcmdjpeg"; "--version"] = None /\
  fst (get_dcmdjpeg_exe (Fixtures.on_dir "ri")) = Return None.
Proof.
  split; [reflexivity |].
  destruct (exe_lookup_probe (Fixtures.on_dir "ri")) as [H _].
  - intros d [<- | [<- | [<- | [<- | []]]]]; reflexivity.
  - rewrite H. reflexivity.
Defined.

(** X3: [get_dcmdjpeg_exe] never raises, whatever the probe does, and what
    it answers is [None], the bare command name, or that name inside one of
    the four install directories; in particular it is never the empty
    string, so [not exe] in [_open] is true for [None] alone.  The command
    name ends in ".exe" exactly on a platform whose name starts with "win". *)
Theorem exe_lookup_total (m : machine) :
  (exists exe,
      fst (get_dcmdjpeg_exe m) = Return exe /\
      (exe = None \/ exe = Some (dcmdjpeg_name (os m)) \/
       exists d, In d dcmtk_dirs /\
                 exe = Some (path_join (os m) d (dcmdjpeg_name (os m)))) /\
      not_exe exe = match exe with None => true | Some _ => false end) /\
  dcmdjpeg_name (os m) =
    (if String.prefix "win" (platform (os m)) then "dcmdjpeg.exe"
     else "dcmdjpeg").
Proof.
  split.
  - rewrite get_dcmdjpeg_exe_run.
    pose proof (locate_exe_not_empty (os m)) as Hne.
    unfold locate_exe in *.
    destruct (find _ dcmtk_dirs) as [d |] eqn:Efind.
    + eexists. split; [reflexivity |]. split.
      * right. right. exists d. split; [| reflexivity].
        now apply find_some in Efind.
      * apply Hne. reflexivity.
    + destruct (check_call (os m) _); eexists; (split; [reflexivity |]).
      * split; [right; left; reflexivity | apply dcmdjpeg_name_not_empty].
      * split; [left; reflexivity | reflexivity].
  - unfold dcmdjpeg_name, str_times, startswith.
    destruct (String.prefix "win" (platform (os m))); reflexivity.
Qed.

(** ** More on opening and closing *)

Lemma discoveries_app (a b : list event) :
  discoveries (List.app a b) = (discoveries a + discoveries b)%nat.
Proof. unfold discoveries. now rewrite filter_app, length_app. Qed.

Lemma locate_exe_no_scan (w : world) :
  discoveries (snd (locate_exe w)) = 0%nat.
Proof.
  unfold locate_exe. destruct (find _ dcmtk_dirs); [reflexivity |].
  destruct (check_call w _); reflexivity.
Qed.

Lemma recovery_self_and_scans (m1 : machine) (fn : string) (err : exn) :
  self (snd (recovery m1 fn err)) = self m1 /\
  discoveries (log (snd (recovery m1 fn err))) = discoveries (log m1).
Proof.
  unfold recovery. pose proof (locate_exe_no_scan (os m1)) as Hs.
  destruct (locate_exe (os m1)) as [[exe w1] evs]. cbn [snd] in Hs.
  destruct exe as [e |];
    [destruct (check_call w1 [e; fn; (fn ++ ".raw")%string]) |];
    cbn [snd moved self log]; rewrite ?discoveries_app, Hs;
    (split; [reflexivity | cbn; lia]).
Qed.

Lemma acquire_self_and_scans (m : machine) (fn : string) :
  self (snd (acquire m fn)) = self m /\
  discoveries (log (snd (acquire m fn))) = discoveries (log m).
Proof.
  unfold acquire.
  assert (Hm1 : self (moved m (os m) [Parsed fn]) = self m /\
                discoveries (log (moved m (os m) [Parsed fn]))
                  = discoveries (log m)).
  { cbn [moved self log]. rewrite discoveries_app. split; [reflexivity | cbn; lia]. }
  destruct (SimpleDicomReader (os m) fn) as [dcm | e]; [exact Hm1 |].
  destruct e; try exact Hm1.
  destruct (contains "JPEG" msg); [| exact Hm1].
  destruct (recovery_self_and_scans (moved m (os m) [Parsed fn]) fn
              (CompressedDicom msg)) as [Hs Hd].
  split; [now rewrite Hs | now rewrite Hd].
Qed.

(** X4: opening a directory reads nothing: whatever the progress value, no
    file is parsed, no process started and no scan made (the log and the
    outside world are as before), no data is loaded, the metadata is the
    empty mapping and the catalog is unset; the call returns for an accepted
    progress value, raises [ValueError] for one the progress check turns
    down, and raises the exception of the comparison for one that cannot be
    compared. *)
Theorem open_directory_is_lazy (m : machine) (progress : pyvalue) :
  isdir (os m) (filename (self_request (self m))) = true ->
  log (snd (_open progress m)) = log m /\
  os (snd (_open progress m)) = os m /\
  _data (self (snd (_open progress m))) = None /\
  _info (self (snd (_open progress m))) = Some [] /\
  _series (self (snd (_open progress m))) = None /\
  (accepted progress -> fst (_open progress m) = Return tt) /\
  (rejected progress ->
   fst (_open progress m) = Raise (ValueError "Invalid value for progress.")) /\
  (forall e, uncomparable progress e -> fst (_open progress m) = Raise e).
Proof.
  intros Hdir. rewrite open_run. cbv zeta. rewrite Hdir. unfold opened.
  destruct (configured progress) as [ind | e] eqn:Hconf;
    cbn [fst snd self os log _data _info _series];
    do 5 (split; [reflexivity |]); (split; [| split]).
  - reflexivity.
  - intros Hrej.
    rewrite (configured_refusal progress _ (or_introl (conj Hrej eq_refl)))
      in Hconf.
    discriminate.
  - intros e Hunc.
    rewrite (configured_refusal progress e (or_intror Hunc)) in Hconf.
    discriminate.
  - intros Hacc. destruct (configured_accepted progress Hacc) as [ind Hind].
    congruence.
  - intros Hrej.
    rewrite (configured_refusal progress _ (or_introl (conj Hrej eq_refl)))
      in Hconf.
    congruence.
  - intros e' Hunc.
    rewrite (configured_refusal progress e' (or_intror Hunc)) in Hconf.
    congruence.
Qed.

(** X4 on the directory of the fixtures. *)
Lemma open_directory_is_lazy_witness :
  isdir Fixtures.posix "scan" = true /\
  log (snd (_open (PyBool false)
              (mkMachine (Fixtures.fresh "scan" "rV") Fixtures.posix []))) = [].
Proof.
  split; [reflexivity |].
  destruct (open_directory_is_lazy
              (mkMachine (Fixtures.fresh "scan" "rV") Fixtures.posix [])
              (PyBool false) eq_refl) as [H _].
  exact H.
Defined.

(** X5: opening a file that parses costs exactly one parse and nothing
    else; the file's metadata and buffer are loaded and the catalog is
    unset.  With a progress value that is refused the call raises (the
    [ValueError] of the progress check, or the exception of the comparison)
    only after that: the data is loaded all the same, and the progress
    indicator is the one the reader had. *)
Theorem open_readable_file (m : machine) (progress : pyvalue) (dcm : dataset) :
  isdir (os m) (filename (self_request (self m))) = false ->
  SimpleDicomReader (os m) (filename (self_request (self m))) = Return dcm ->
  log (snd (_open progress m)) =
    List.app (log m) [Parsed (filename (self_request (self m)))] /\
  os (snd (_open progress m)) = os m /\
  _info (self (snd (_open progress m))) = Some (dcm_info dcm) /\
  _data (self (snd (_open progress m))) = Some (dcm_array dcm) /\
  _series (self (snd (_open progress m))) = None /\
  (accepted progress -> fst (_open progress m) = Return tt) /\
  (rejected progress ->
   fst (_open progress m) = Raise (ValueError "Invalid value for progress.") /\
   _progressIndicator (self (snd (_open progress m)))
     = _progressIndicator (self m)) /\
  (forall e,
      uncomparable progress e ->
      fst (_open progress m) = Raise e /\
      _progressIndicator (self (snd (_open progress m)))
        = _progressIndicator (self m)).
Proof.
  intros Hdir Hp. rewrite open_run. cbv zeta. rewrite Hdir.
  unfold acquire. rewrite Hp. unfold opened.
  destruct (configured progress) as [ind | e] eqn:Hconf;
    cbn [fst snd self os log moved _data _info _series _progressIndicator];
    do 5 (split; [reflexivity |]); (split; [| split]).
  - reflexivity.
  - intros Hrej.
    rewrite (configured_refusal progress _ (or_introl (conj Hrej eq_refl)))
      in Hconf.
    discriminate.
  - intros e Hunc.
    rewrite (configured_refusal progress e (or_intror Hunc)) in Hconf.
    discriminate.
  - intros Hacc. destruct (configured_accepted progress Hacc) as [ind Hind].
    congruence.
  - intros Hrej.
    rewrite (configured_refusal progress _ (or_introl (conj Hrej eq_refl)))
      in Hconf.
    split; [congruence | reflexivity].
  - intros e' Hunc.
    rewrite (configured_refusal progress e' (or_intror Hunc)) in Hconf.
    split; [congruence | reflexivity].
Qed.

(** X5 on the plain file of the fixtures. *)
Lemma open_readable_file_witness :
  isdir Fixtures.posix "one.dcm" = false /\
  log (snd (_open (PyStr "loud")
              (mkMachine (Fixtures.fresh "one.dcm" "ri") Fixtures.posix [])))
    = [Parsed "one.dcm"].
Proof.
  split; [reflexivity |].
  destruct (open_readable_file
              (mkMachine (Fixtures.fresh "one.dcm" "ri") Fixtures.posix [])
              (PyStr "loud") (Dataset Fixtures.info_a (Array2 Fixtures.px0))
              eq_refl eq_refl) as [H _].
  exact H.
Defined.

(** X6: when the dataset of the file cannot be acquired (the parser raises
    and there is no recovery, the recovery is not possible, or the converted
    file does not parse), [_open] raises that exception before it assigns
    anything: no attribute of the reader has changed. *)
Theorem open_failure_keeps_reader (m : machine) (progress : pyvalue) (e : exn) :
  isdir (os m) (filename (self_request (self m))) = false ->
  fst (acquire m (filename (self_request (self m)))) = Raise e ->
  fst (_open progress m) = Raise e /\
  self (snd (_open progress m)) = self m.
Proof.
  intros Hdir Hacq. rewrite open_run. cbv zeta. rewrite Hdir.
  destruct (acquire_self_and_scans m (filename (self_request (self m))))
    as [Hself _].
  destruct (acquire m (filename (self_request (self m)))) as [[dcm | e'] m1];
    cbn [fst snd] in *; [discriminate |].
  injection Hacq as ->. split; [reflexivity | exact Hself].
Qed.

(** X6 on the fixtures: the file that is no DICOM file. *)
Lemma open_failure_keeps_reader_witness :
  fst (acquire (mkMachine (Fixtures.fresh "junk.bin" "ri") Fixtures.posix [])
               "junk.bin")
    = Raise (NotADicomFile "Not a valid DICOM file.") /\
  self (snd (_open (PyBool true)
               (mkMachine (Fixtures.fresh "junk.bin" "ri") Fixtures.posix [])))
    = Fixtures.fresh "junk.bin" "ri".
Proof.
  split; [reflexivity |].
  apply (open_failure_keeps_reader
           (mkMachine (Fixtures.fresh "junk.bin" "ri") Fixtures.posix [])
           (PyBool true) (NotADicomFile "Not a valid DICOM file.")
           eq_refl eq_refl).
Defined.

Lemma opened_log (m : machine) (inf : option metadata) (dat : option ndarray)
    (progress : pyvalue) :
  log (snd (opened m inf dat progress)) = log m.
Proof. unfold opened. destruct (configured progress); reflexivity. Qed.

Lemma opened_series (m : machine) (inf : option metadata)
    (dat : option ndarray) (progress : pyvalue) :
  _series (self (snd (opened m inf dat progress))) = None.
Proof. unfold opened. destruct (configured progress); reflexivity. Qed.

Lemma open_no_scan (m : machine) (progress : pyvalue) :
  discoveries (log (snd (_open progress m))) = discoveries (log m).
Proof.
  rewrite open_run. cbv zeta.
  destruct (isdir (os m) (filename (self_request (self m)))).
  - now rewrite opened_log.
  - destruct (acquire_self_and_scans m (filename (self_request (self m))))
      as [_ Hscan].
    destruct (acquire m (filename (self_request (self m)))) as [[dcm | e] m1];
      cbn [snd] in *; [now rewrite opened_log | exact Hscan].
Qed.

(** X7: from [_open] on, the directory is scanned at most once: [_open]
    itself never scans, in none of its branches, and any session of length,
    data and metadata calls that follows it, with the outside world changing
    at will, adds at most one scan. *)
Theorem one_scan_per_lifetime (m : machine) (progress : pyvalue)
    (steps : list (world * call)) :
  discoveries (log (snd (_open progress m))) = discoveries (log m) /\
  (discoveries (log (session steps (snd (_open progress m))))
   <= discoveries (log m) + 1)%nat.
Proof.
  split; [apply open_no_scan |].
  destruct (session_budget steps (snd (_open progress m))) as [Hb _].
  unfold scans_budget in Hb. rewrite open_no_scan in Hb.
  destruct (_series (self (session steps (snd (_open progress m)))));
    destruct (_series (self (snd (_open progress m)))); lia.
Qed.

(** ** Closing *)

(** The reader after [_close]. *)
Definition closed (m : machine) : machine :=
  mkMachine (mkReader (self_request (self m)) None None None
                      (_progressIndicator (self m)))
            (os m) (log m).

Lemma close_run (m : machine) : _close m = (Return tt, closed m).
Proof. reflexivity. Qed.

(** X8: a closed reader has forgotten the catalog and the loaded data: the
    next call of [_get_length], [_get_data] or [_get_meta_data], whichever it
    is and in whatever mode, scans the directory again, and what it loads is
    the first file of the first series of that scan, also on a reader that
    had been opened on a file of its own.  Closing twice is closing once. *)
Theorem close_forgets (m : machine) (c : call) :
  log (snd (perform c (snd (_close m)))) =
    List.app (log m) [Discovered (self_request (self m))] /\
  _series (self (snd (perform c (snd (_close m))))) =
    Some (process_directory (os m) (self_request (self m))
                            (_progressIndicator (self m))) /\
  (forall dcm,
      first_dataset (process_directory (os m) (self_request (self m))
                                       (_progressIndicator (self m)))
        = Some dcm ->
      _data (self (snd (perform c (snd (_close m))))) = Some (dcm_array dcm) /\
      _info (self (snd (perform c (snd (_close m))))) = Some (dcm_info dcm)) /\
  _close (snd (_close m)) = _close m.
Proof.
  rewrite !close_run. cbn [snd].
  assert (Hd : _data (self (closed m)) = None) by reflexivity.
  destruct (perform_unloaded c (closed m) Hd) as [Hsome Hnone].
  change (catalog_of (closed m))
    with (process_directory (os m) (self_request (self m))
                            (_progressIndicator (self m))) in *.
  destruct (first_dataset (process_directory (os m) (self_request (self m))
                                             (_progressIndicator (self m))))
    as [dcm |] eqn:Hf.
  - rewrite (Hsome dcm eq_refl).
    split; [reflexivity | split; [reflexivity | split; [| reflexivity]]].
    intros dcm' [= <-]. split; reflexivity.
  - rewrite (Hnone eq_refl).
    split; [reflexivity | split; [reflexivity | split; [| reflexivity]]].
    discriminate.
Qed.

(** ** More on the three calls *)

Lemma slice_count_nonneg (d : ndarray) : 0 <= slice_count d.
Proof. destruct d; simpl; lia. Qed.

(** X9: [_get_length] never answers with a negative number, in any mode and
    from any state of the reader. *)
Theorem length_never_negative (m : machine) (n : Z) :
  fst (_get_length m) = Return n -> 0 <= n.
Proof.
  destruct (load_first m) as [[[] | e] m'] eqn:Hload.
  - destruct (load_first_ok m m' Hload) as ([d Hd] & _ & _ & Hlen & _).
    rewrite Hlen, (get_length_answer m' d Hd).
    pose proof (slice_count_nonneg d) as Hn.
    destruct (mode_char m') as [c |]; unfold length_answer, no_mode;
      [| discriminate].
    repeat match goal with
           | |- context [if ?b then _ else _] => destruct b
           end;
      cbn [run_answer fst]; intros [= <-];
      rewrite ?total_len_flatten; lia.
  - unfold _get_length. rewrite (load_first_raises _ m m' e Hload).
    discriminate.
Qed.

(** X9 on the directory of the fixtures. *)
Lemma length_never_negative_witness :
  fst (_get_length (Fixtures.on_dir "rI")) = Return 5 /\ 0 <= 5.
Proof.
  split; [reflexivity |].
  apply (length_never_negative (Fixtures.on_dir "rI") 5). reflexivity.
Defined.

Lemma flatten_concat (pre post : list serie) :
  flatten (List.app pre post) = List.app (flatten pre) (flatten post).
Proof.
  induction pre as [| s pre IH]; [reflexivity |].
  cbn [List.app]. rewrite !flatten_cons, IH. now rewrite app_assoc.
Qed.

(** X11: in MultiImage mode, when the loaded buffer is not multi-slice, the
    items are addressed series after series: for a catalog
    [pre ++ s :: post], index (number of items in [pre]) + [j] is item [j]
    of series [s], for every [j] within [s], and the length is the number of
    items of all series together. *)
Theorem multi_image_addressing (m : machine) (d : ndarray)
    (pre post : list serie) (s : serie) (j : Z) :
  mode_char m = Some "I"%char ->
  _data (self m) = Some d ->
  slice_count d <= 1 ->
  catalog_of m = List.app pre (s :: post) ->
  0 <= j < Z.of_nat (List.length (entries s)) ->
  (exists x,
      nth_error (entries s) (Z.to_nat j) = Some x /\
      fst (_get_data (total_len pre + j) m)
        = Return (dcm_array x, Some (dcm_info x))) /\
  fst (_get_length m) =
    Return (total_len pre + Z.of_nat (List.length (entries s)) + total_len post).
Proof.
  intros Hc Hd Hn Hcat Hj.
  assert (Hflat : flatten (catalog_of m) =
                  List.app (flatten pre) (List.app (entries s) (flatten post))).
  { now rewrite Hcat, flatten_concat, flatten_cons. }
  split.
  - rewrite (get_data_answer m d _ Hd), Hc, data_answer_I, fast_path_off
      by exact Hn.
    cbn [run_answer fst]. rewrite Hflat, total_len_flatten. unfold pick.
    rewrite py_index_nonneg by lia.
    rewrite nth_error_app2 by lia.
    replace (Z.to_nat (Z.of_nat (List.length (flatten pre)) + j)
             - List.length (flatten pre))%nat with (Z.to_nat j) by lia.
    rewrite nth_error_app1 by lia.
    destruct (nth_error (entries s) (Z.to_nat j)) as [x |] eqn:E.
    + exists x. split; reflexivity.
    + apply nth_error_None in E. lia.
  - rewrite (get_length_answer m d Hd), Hc. unfold length_answer.
    change (("I" =? "i")%char) with false.
    change (("I" =? "I")%char) with true. cbv iota.
    destruct (Z.ltb_spec 1 (slice_count d)); [lia |].
    cbn [run_answer fst].
    rewrite !total_len_flatten, Hflat, !length_app. f_equal. lia.
Qed.

(** X11 on a reader that holds a single image, over the directory of the
    fixtures: index 2 + 1 is item 1 of the second series. *)
Lemma multi_image_addressing_witness :
  catalog_of (Fixtures.loaded "rI" (Array2 Fixtures.px0))
    = List.app [Fixtures.serie0] (Fixtures.serie1 :: []) /\
  fst (_get_data 3 (Fixtures.loaded "rI" (Array2 Fixtures.px0)))
    = Return (dcm_array (Fixtures.dcm 3), Some (dcm_info (Fixtures.dcm 3))).
Proof.
  split; [reflexivity |].
  destruct (multi_image_addressing
              (Fixtures.loaded "rI" (Array2 Fixtures.px0)) (Array2 Fixtures.px0)
              [Fixtures.serie0] [] Fixtures.serie1 1
              eq_refl eq_refl) as [[x [Hx Hd]] _].
  - simpl. lia.
  - reflexivity.
  - simpl. lia.
  - cbn in Hx. injection Hx as <-. exact Hd.
Defined.

(** X12: in SingleImage mode, once a buffer is loaded, no call ever changes
    the reader or scans the directory: over any session of length, data and
    metadata calls, good indices and bad, the reader and the log stay as
    they are. *)
Theorem single_image_session_is_inert (steps : list (world * call))
    (m : machine) (d : ndarray) :
  mode_char m = Some "i"%char ->
  _data (self m) = Some d ->
  self (session steps m) = self m /\ log (session steps m) = log m.
Proof.
  revert m. induction steps as [| [w c] rest IH]; intros m Hc Hd;
    cbn [session]; [split; reflexivity |].
  assert (Hstay : snd (perform c (with_os m w)) = with_os m w).
  { assert (Hd' : _data (self (with_os m w)) = Some d) by exact Hd.
    assert (Hc' : mode_char (with_os m w) = Some "i"%char) by exact Hc.
    destruct c as [| i | j]; cbn [perform snd].
    - rewrite (get_length_answer _ d Hd'), Hc'. reflexivity.
    - rewrite (get_data_answer _ d i Hd'), Hc', data_answer_i.
      destruct (1 <? slice_count d); [reflexivity |].
      destruct (i =? 0); reflexivity.
    - rewrite (get_meta_data_answer _ d j Hd'), Hc'.
      destruct j; reflexivity. }
  rewrite Hstay. apply (IH (with_os m w)); assumption.
Qed.

(** X12 on a loaded stack of two slices. *)
Lemma single_image_session_is_inert_witness :
  mode_char (Fixtures.loaded "ri" (Array3 [Fixtures.px0; Fixtures.px1]))
    = Some "i"%char /\
  log (session [(Fixtures.posix, Data 7); (Fixtures.with_dcmtk [], Length);
                (Fixtures.posix, MetaData (Some 1))]
               (Fixtures.loaded "ri" (Array3 [Fixtures.px0; Fixtures.px1])))
    = [].
Proof.
  split; [reflexivity |].
  apply (single_image_session_is_inert _
           (Fixtures.loaded "ri" (Array3 [Fixtures.px0; Fixtures.px1]))
           (Array3 [Fixtures.px0; Fixtures.px1]) eq_refl eq_refl).
Defined.

(** X13: with a multi-slice buffer loaded, index 0 is answered from the
    buffer in every recognized mode, without a look at the catalog: the
    state is untouched, and the answer is slice 0 in the image modes and the
    whole buffer in the volume modes, each with the loaded metadata. *)
Theorem index_zero_fast_path (m : machine) (c : ascii) (d : ndarray) :
  recognized c ->
  mode_char m = Some c ->
  _data (self m) = Some d ->
  1 < slice_count d ->
  exists px rest,
    d = Array3 (px :: rest) /\
    _get_data 0 m =
      (Return (if in_vV c then d else Array2 px, _info (self m)), m) /\
    _get_meta_data (Some 0) m = (Return (_info (self m)), m).
Proof.
  intros Hrec Hc Hd Hn.
  destruct (multi_slice_is_stack d Hn) as [slices ->].
  destruct slices as [| px rest]; [simpl in Hn; lia |].
  exists px, rest. split; [reflexivity |].
  rewrite (get_data_answer m _ 0 Hd), (get_meta_data_answer m _ _ Hd), Hc.
  assert (Hlt : (1 <? slice_count (Array3 (px :: rest))) = true)
    by now apply Z.ltb_lt.
  destruct Hrec as [-> | [-> | [-> | ->]]].
  - rewrite data_answer_i, Hlt. split; reflexivity.
  - rewrite data_answer_I. cbn [Z.eqb andb]. rewrite Hlt.
    split; [reflexivity |].
    unfold meta_answer. change (("I" =? "i")%char) with false.
    change (("I" =? "I")%char) with true. cbv iota. cbn [Z.eqb andb].
    now rewrite Hlt.
  - rewrite (data_answer_vV "v") by now left. cbn [Z.eqb andb]. rewrite Hlt.
    split; [reflexivity |].
    unfold meta_answer. change (("v" =? "i")%char) with false.
    change (("v" =? "I")%char) with false. change (in_vV "v") with true.
    cbv iota. cbn [Z.eqb andb]. now rewrite Hlt.
  - rewrite (data_answer_vV "V") by now right. cbn [Z.eqb andb]. rewrite Hlt.
    split; [reflexivity |].
    unfold meta_answer. change (("V" =? "i")%char) with false.
    change (("V" =? "I")%char) with false. change (in_vV "V") with true.
    cbv iota. cbn [Z.eqb andb]. now rewrite Hlt.
Qed.

(** X13 on a loaded stack of two slices, in MultiVolume mode. *)
Lemma index_zero_fast_path_witness :
  recognized "V" /\
  snd (_get_data 0 (Fixtures.loaded "rV" (Array3 [Fixtures.px0; Fixtures.px1])))
    = Fixtures.loaded "rV" (Array3 [Fixtures.px0; Fixtures.px1]).
Proof.
  assert (Hrec : recognized "V") by (right; right; now right).
  split; [exact Hrec |].
  destruct (index_zero_fast_path
              (Fixtures.loaded "rV" (Array3 [Fixtures.px0; Fixtures.px1]))
              "V" (Array3 [Fixtures.px0; Fixtures.px1]) Hrec eq_refl eq_refl)
    as (px & rest & _ & Hdata & _).
  - simpl. lia.
  - rewrite Hdata. reflexivity.
Defined.

Lemma opened_returns (m1 : machine) (inf : option metadata)
    (dat : option ndarray) (progress : pyvalue) :
  fst (opened m1 inf dat progress) = Return tt ->
  exists ind,
    configured progress = Return ind /\
    snd (opened m1 inf dat progress) =
      mkMachine (mkReader (self_request (self m1)) inf dat None (Some ind))
                (os m1) (log m1).
Proof.
  unfold opened. destruct (configured progress) as [ind | e]; [| discriminate].
  intros _. now exists ind.
Qed.

(** X14: after an [_open] that returned, the first use of the [series]
    property scans with the progress indicator the progress value stands
    for: the stdout indicator "Reading DICOM" for [True], the silent
    indicator "Dummy" for [False], [None] and 0, and the caller's own
    indicator when one was passed. *)
Theorem scan_uses_configured_indicator (m : machine) (progress : pyvalue) :
  fst (_open progress m) = Return tt ->
  exists ind,
    fst (series (snd (_open progress m))) =
      Return (process_directory (os (snd (_open progress m)))
                                (self_request (self m)) (Some ind)) /\
    (progress = PyBool true -> ind = StdoutProgressIndicator "Reading DICOM") /\
    (progress = PyBool false \/ progress = PyNone \/ progress = PyInt 0 ->
     ind = BaseProgressIndicator "Dummy") /\
    (forall own, progress = PyIndicator own -> ind = own).
Proof.
  rewrite open_run. cbv zeta.
  assert (Hfin : forall m1 inf dat,
             self_request (self m1) = self_request (self m) ->
             fst (opened m1 inf dat progress) = Return tt ->
             exists ind,
               fst (series (snd (opened m1 inf dat progress))) =
                 Return (process_directory (os (snd (opened m1 inf dat progress)))
                                           (self_request (self m)) (Some ind)) /\
               (progress = PyBool true ->
                ind = StdoutProgressIndicator "Reading DICOM") /\
               (progress = PyBool false \/ progress = PyNone \/
                progress = PyInt 0 -> ind = BaseProgressIndicator "Dummy") /\
               (forall own, progress = PyIndicator own -> ind = own)).
  { intros m1 inf dat Hreq Hret.
    destruct (opened_returns m1 inf dat progress Hret) as (ind & Hconf & ->).
    exists ind. rewrite series_catalog. unfold catalog_of.
    cbn [self os _series self_request _progressIndicator]. rewrite Hreq.
    split; [reflexivity |].
    split; [| split].
    - intros ->. cbn in Hconf. congruence.
    - intros [-> | [-> | ->]]; cbn in Hconf; congruence.
    - intros own ->. cbn in Hconf. congruence. }
  destruct (isdir (os m) (filename (self_request (self m)))).
  - apply Hfin. reflexivity.
  - destruct (acquire_self_and_scans m (filename (self_request (self m))))
      as [Hself _].
    destruct (acquire m (filename (self_request (self m)))) as [[dcm | e] m1];
      [| discriminate].
    cbn [snd] in Hself. apply Hfin. now rewrite Hself.
Qed.

(** X14 on the directory of the fixtures, opened with [progress=True]. *)
Lemma scan_uses_configured_indicator_witness :
  fst (_open (PyBool true)
         (mkMachine (Fixtures.fresh "scan" "rI") Fixtures.posix []))
    = Return tt /\
  fst (series (snd (_open (PyBool true)
                      (mkMachine (Fixtures.fresh "scan" "rI") Fixtures.posix []))))
    = Return [Fixtures.serie0; Fixtures.serie1].
Proof.
  split; [reflexivity |].
  destruct (scan_uses_configured_indicator
              (mkMachine (Fixtures.fresh "scan" "rI") Fixtures.posix [])
              (PyBool true) eq_refl) as (ind & Hscan & _).
  rewrite Hscan. reflexivity.
Defined.

(** ** Recognising a DICOM source: [DicomFormat._can_read] *)

(** File names in the order of [list.sort()] on strings: character by
    character, by code. *)
Module StringOrder <: Orders.TotalLeBool.
Definition t : Type := string.
Definition leb : string -> string -> bool := String.leb.
Lemma leb_total (x y : string) : leb x y = true \/ leb y x = true.
Proof. apply String.leb_total. Qed.
End StringOrder.

Module StringSort := Mergesort.Sort StringOrder.

(** What [_can_read] reaches besides the [world]: the entries of a
    directory and the bytes of a file ([None] when it cannot be opened). *)
Record disk : Type := mkDisk {
  listdir : string -> list string;
  contents : string -> option string
}.

Inductive can_read_result : Type :=
| CanRead (b : bool)
| OpenFailed (path : string).

(** Modelled from the spec: [read_n_bytes] of [imageio.core] is not part of
    this file; it hands out "the first 140 bytes of a file", or all of a
    shorter one. *)
Definition read_n_bytes (bytes : string) (n : nat) : string :=
  substring 0 n bytes.

(** [os.path.join(dir, name)] for a relative [name]. *)
Definition os_path_join (w : world) (dir name : string) : string :=
  if String.eqb dir "" then name
  else if String.eqb (substring (String.length dir - String.length (sep w))
                                (String.length (sep w)) dir) (sep w)
       then (dir ++ name)%string
       else (dir ++ sep w ++ name)%string.

(** [b[128:132] == b'DICM'] *)
Definition magic_at_128 (b : string) : bool :=
  String.eqb (substring 128 4 b) "DICM".

(** [DicomFormat._can_read(request)]; [firstbytes] is [request.firstbytes]. *)
Definition _can_read (w : world) (d : disk) (req : request)
    (firstbytes : string) : can_read_result :=
  if isdir w (filename req) then
    let files := StringSort.sort (listdir d (filename req)) in
    match files with
    | first :: _ =>
        match contents d (os_path_join w (filename req) first) with
        | Some bytes => CanRead (magic_at_128 (read_n_bytes bytes 140))
        | None => OpenFailed (os_path_join w (filename req) first)
        end
    | [] => CanRead false
    end
  else CanRead (magic_at_128 firstbytes).

(** [DicomFormat._can_write(request)] *)
Definition _can_write (req : request) : bool := false.

Lemma string_leb_trans (a b c : string) :
  String.leb a b = true -> String.leb b c = true -> String.leb a c = true.
Proof.
  unfold String.leb. revert b c.
  induction a as [| x a IH]; intros [| y b] [| z c]; cbn [String.compare];
    try easy.
  unfold Ascii.compare.
  destruct (N.compare_spec (N_of_ascii x) (N_of_ascii y)) as [Hxy | Hxy | Hxy];
    destruct (N.compare_spec (N_of_ascii y) (N_of_ascii z)) as [Hyz | Hyz | Hyz];
    destruct (N.compare_spec (N_of_ascii x) (N_of_ascii z)) as [Hxz | Hxz | Hxz];
    try easy; try lia.
  apply IH.
Qed.

Lemma string_leb_refl (a : string) : String.leb a a = true.
Proof. destruct (String.leb_total a a); assumption. Qed.

(** The first name of the sorted listing is the least name of the listing. *)
Lemma sorted_first_is_least (l : list string) (first : string)
    (rest : list string) :
  StringSort.sort l = first :: rest ->
  In first l /\ forall y, In y l -> String.leb first y = true.
Proof.
  intros Hs.
  pose proof (StringSort.Permuted_sort l) as Hp.
  assert (Hss : StronglySorted (fun x y => is_true (String.leb x y))
                               (StringSort.sort l)).
  { apply StringSort.StronglySorted_sort.
    intros x y z Hxy Hyz. exact (string_leb_trans x y z Hxy Hyz). }
  rewrite Hs in Hp, Hss. split.
  - apply (Permutation_in first (Permutation_sym Hp)). now left.
  - intros y Hy. apply (Permutation_in y Hp) in Hy.
    destruct Hy as [<- | Hy]; [apply string_leb_refl |].
    inversion Hss as [| ? ? _ Hall]; subst.
    rewrite Forall_forall in Hall. now apply Hall.
Qed.

Lemma sorted_empty (l : list string) : StringSort.sort l = [] -> l = [].
Proof.
  intros Hs. pose proof (StringSort.Permuted_sort l) as Hp. rewrite Hs in Hp.
  now apply Permutation_nil, Permutation_sym.
Qed.

(** The sorted listing starts with the least name, whichever way the
    directory was listed. *)
Lemma sorted_first_of_least (l : list string) (x : string) :
  In x l -> (forall y, In y l -> String.leb x y = true) ->
  exists rest, StringSort.sort l = x :: rest.
Proof.
  intros Hin Hleast.
  destruct (StringSort.sort l) as [| first rest] eqn:Hs.
  - apply sorted_empty in Hs. subst l. contradiction.
  - exists rest. f_equal.
    destruct (sorted_first_is_least l first rest Hs) as [Hfirst Hmin].
    apply String.leb_antisym; [now apply Hmin | now apply Hleast].
Qed.

Lemma magic_at_128_spec (b : string) :
  magic_at_128 b = true <->
  String.get 128 b = Some "D"%char /\ String.get 129 b = Some "I"%char /\
  String.get 130 b = Some "C"%char /\ String.get 131 b = Some "M"%char.
Proof.
  unfold magic_at_128. rewrite String.eqb_eq. split.
  - intros H.
    pose proof (fun p Hp => substring_correct1 b 128 4 p Hp) as Hg.
    rewrite H in Hg.
    repeat split; symmetry;
      [exact (Hg 0%nat ltac:(lia)) | exact (Hg 1%nat ltac:(lia))
       | exact (Hg 2%nat ltac:(lia)) | exact (Hg 3%nat ltac:(lia))].
  - intros (H0 & H1 & H2 & H3). apply get_correct. intros n.
    destruct (Nat.lt_ge_cases n 4) as [Hn | Hn].
    + rewrite (substring_correct1 b 128 4 n Hn).
      destruct n as [| [| [| [| n]]]]; [| | | | lia]; cbn [Nat.add];
        [rewrite H0 | rewrite H1 | rewrite H2 | rewrite H3]; reflexivity.
    + rewrite (substring_correct2 b 128 4 n Hn).
      do 4 (destruct n as [| n]; [lia |]). reflexivity.
Qed.

Lemma read_n_bytes_get (b : string) (n p : nat) :
  (p < n)%nat -> String.get p (read_n_bytes b n) = String.get p b.
Proof.
  intros Hp. unfold read_n_bytes.
  rewrite (substring_correct1 b 0 n p Hp). now rewrite Nat.add_0_r.
Qed.

(** Reading 132 bytes or more loses nothing of the check. *)
Lemma magic_of_first_bytes (b : string) (n : nat) :
  (132 <= n)%nat -> magic_at_128 (read_n_bytes b n) = magic_at_128 b.
Proof.
  intros Hn.
  assert (H : magic_at_128 (read_n_bytes b n) = true <-> magic_at_128 b = true).
  { rewrite !magic_at_128_spec. rewrite !read_n_bytes_get by lia. reflexivity. }
  destruct (magic_at_128 (read_n_bytes b n)), (magic_at_128 b);
    try reflexivity; destruct H as [H1 H2];
    [symmetry; now apply H1 | now apply H2].
Qed.

Lemma get_within (s : string) (n : nat) (c : ascii) :
  String.get n s = Some c -> (n < String.length s)%nat.
Proof.
  revert n. induction s as [| a s IH]; intros n; [discriminate |].
  destruct n as [| n]; cbn [String.get String.length]; [lia |].
  intros H. apply IH in H. lia.
Qed.

(** A file and a directory of the kind [_can_read] meets. *)
Module Probe.

Definition padding : string :=
  "0123456789012345678901234567890123456789012345678901234567890123".

(** 128 bytes of preamble, the marker, and the start of a data set. *)
Definition dicom_bytes : string := (padding ++ padding ++ "DICM" ++ "....")%string.

Definition other_bytes : string := (padding ++ padding ++ "RIFF" ++ "....")%string.

Definition shelf : disk :=
  mkDisk (fun d => if String.eqb d "scan" then ["b.dcm"; "a.dcm"; "c.txt"] else [])
         (fun f => if String.eqb f "scan/a.dcm" then Some dicom_bytes
                   else if String.eqb f "scan/b.dcm" then Some other_bytes
                   else None).

End Probe.

(** X15: on a file source [_can_read] looks at nothing but bytes 128 to 131
    of [request.firstbytes]: it answers [True] exactly when these four are
    "D", "I", "C", "M"; with fewer than 132 first bytes the answer is
    [False], and it never fails. *)
Theorem can_read_file (w : world) (d : disk) (req : request)
    (firstbytes : string) :
  isdir w (filename req) = false ->
  exists b,
    _can_read w d req firstbytes = CanRead b /\
    (b = true <->
     String.get 128 firstbytes = Some "D"%char /\
     String.get 129 firstbytes = Some "I"%char /\
     String.get 130 firstbytes = Some "C"%char /\
     String.get 131 firstbytes = Some "M"%char) /\
    ((String.length firstbytes < 132)%nat -> b = false).
Proof.
  intros Hdir. unfold _can_read. rewrite Hdir.
  exists (magic_at_128 firstbytes). split; [reflexivity |].
  split; [apply magic_at_128_spec |].
  intros Hlen. destruct (magic_at_128 firstbytes) eqn:E; [| reflexivity].
  apply magic_at_128_spec in E. destruct E as (_ & _ & _ & H131).
  apply get_within in H131. lia.
Qed.

(** X15 on a file that carries the marker. *)
Lemma can_read_file_witness :
  isdir Fixtures.posix "one.dcm" = false /\
  _can_read Fixtures.posix Probe.shelf (Request "one.dcm" "ri")
            Probe.dicom_bytes = CanRead true.
Proof.
  split; [reflexivity |].
  destruct (can_read_file Fixtures.posix Probe.shelf (Request "one.dcm" "ri")
              Probe.dicom_bytes eq_refl) as (b & Hb & Hiff & _).
  rewrite Hb. f_equal. apply Hiff. repeat split.
Defined.

(** X16: on a directory [_can_read] is decided by the entry with the least
    name alone: an empty directory is not readable; otherwise the file of
    least name is opened, the answer is whether its bytes 128 to 131 are the
    marker (the 140 bytes read lose nothing of that), and if that file
    cannot be opened the failure is the caller's.  [request.firstbytes]
    plays no part. *)
Theorem can_read_directory (w : world) (d : disk) (req : request)
    (firstbytes : string) :
  isdir w (filename req) = true ->
  (listdir d (filename req) = [] ->
   _can_read w d req firstbytes = CanRead false) /\
  (forall x,
      In x (listdir d (filename req)) ->
      (forall y, In y (listdir d (filename req)) -> String.leb x y = true) ->
      _can_read w d req firstbytes =
        match contents d (os_path_join w (filename req) x) with
        | Some bytes => CanRead (magic_at_128 bytes)
        | None => OpenFailed (os_path_join w (filename req) x)
        end).
Proof.
  intros Hdir. unfold _can_read. rewrite Hdir. cbv zeta. split.
  - intros ->. reflexivity.
  - intros x Hin Hleast.
    destruct (sorted_first_of_least _ x Hin Hleast) as [rest ->].
    destruct (contents d (os_path_join w (filename req) x)); [| reflexivity].
    now rewrite magic_of_first_bytes by lia.
Qed.

(** X16 on the directory of three entries: "a.dcm" decides. *)
Lemma can_read_directory_witness :
  isdir Fixtures.posix "scan" = true /\
  _can_read Fixtures.posix Probe.shelf (Request "scan" "rI") "" = CanRead true.
Proof.
  split; [reflexivity |].
  destruct (can_read_directory Fixtures.posix Probe.shelf (Request "scan" "rI")
              "" eq_refl) as [_ H].
  rewrite (H "a.dcm").
  - reflexivity.
  - right. left. reflexivity.
  - intros y [<- | [<- | [<- | []]]]; reflexivity.
Defined.

(** X17: the order in which the directory is listed does not matter: two
    listings with the same entries, over the same files, get the same
    answer from [_can_read], whatever the first bytes passed along. *)
Theorem can_read_listing_order (w : world) (d d' : disk) (req : request)
    (firstbytes firstbytes' : string) :
  isdir w (filename req) = true ->
  Permutation (listdir d (filename req)) (listdir d' (filename req)) ->
  (forall f, contents d f = contents d' f) ->
  _can_read w d req firstbytes = _can_read w d' req firstbytes'.
Proof.
  intros Hdir Hperm Hcont. unfold _can_read. rewrite Hdir. cbv zeta.
  destruct (StringSort.sort (listdir d (filename req))) as [| x rest] eqn:Hs.
  - apply sorted_empty in Hs. rewrite Hs in Hperm.
    apply Permutation_nil in Hperm. now rewrite Hperm.
  - destruct (sorted_first_is_least _ x rest Hs) as [Hin Hleast].
    destruct (sorted_first_of_least (listdir d' (filename req)) x) as [rest' ->].
    + now apply (Permutation_in x Hperm).
    + intros y Hy. apply Hleast.
      now apply (Permutation_in y (Permutation_sym Hperm)).
    + now rewrite Hcont.
Qed.

(** X17 on the directory of three entries, listed the other way round. *)
Lemma can_read_listing_order_witness :
  isdir Fixtures.posix "scan" = true /\
  _can_read Fixtures.posix Probe.shelf (Request "scan" "rI") "" =
  _can_read Fixtures.posix
            (mkDisk (fun _ => ["c.txt"; "a.dcm"; "b.dcm"])
                    (contents Probe.shelf))
            (Request "scan" "rI") "x".
Proof.
  split; [reflexivity |].
  apply (can_read_listing_order Fixtures.posix Probe.shelf
           (mkDisk (fun _ => ["c.txt"; "a.dcm"; "b.dcm"]) (contents Probe.shelf))
           (Request "scan" "rI") "" "x" eq_refl).
  - cbn. apply perm_trans with ["a.dcm"; "b.dcm"; "c.txt"].
    + apply perm_swap.
    + apply Permutation_sym.
      apply (Permutation_cons_app ["a.dcm"; "b.dcm"] [] "c.txt").
      apply Permutation_refl.
  - reflexivity.
Defined.

(** X18: a directory is readable exactly when the file of least name in it
    is, taken as a source of its own: [_can_read] on the directory gives the
    answer it gives on that file with its first [k >= 132] bytes as
    [request.firstbytes]. *)
Theorem can_read_directory_as_first_file (w : world) (d : disk)
    (dir md md' x bytes : string) (k : nat) :
  isdir w dir = true ->
  isdir w (os_path_join w dir x) = false ->
  In x (listdir d dir) ->
  (forall y, In y (listdir d dir) -> String.leb x y = true) ->
  contents d (os_path_join w dir x) = Some bytes ->
  (132 <= k)%nat ->
  _can_read w d (Request dir md) "" =
  _can_read w d (Request (os_path_join w dir x) md') (read_n_bytes bytes k).
Proof.
  intros Hdir Hfile Hin Hleast Hbytes Hk.
  destruct (can_read_directory w d (Request dir md) "" Hdir) as [_ Hd].
  rewrite (Hd x Hin Hleast). cbn [filename]. rewrite Hbytes.
  unfold _can_read. cbn [filename]. rewrite Hfile.
  now rewrite magic_of_first_bytes.
Qed.

(** X18 on the directory of three entries, against 256 first bytes. *)
Lemma can_read_directory_as_first_file_witness :
  contents Probe.shelf (os_path_join Fixtures.posix "scan" "a.dcm")
    = Some Probe.dicom_bytes /\
  _can_read Fixtures.posix Probe.shelf (Request "scan" "rI") "" =
  _can_read Fixtures.posix Probe.shelf (Request "scan/a.dcm" "ri")
            (read_n_bytes Probe.dicom_bytes 256).
Proof.
  split; [reflexivity |].
  apply (can_read_directory_as_first_file Fixtures.posix Probe.shelf
           "scan" "rI" "ri" "a.dcm" Probe.dicom_bytes 256 eq_refl eq_refl).
  - right. left. reflexivity.
  - intros y [<- | [<- | [<- | []]]]; reflexivity.
  - reflexivity.
  - lia.
Defined.
